(** * Job-artifact bindings of python-gitlab

    A shallow embedding of [gitlab/v4/objects/artifacts.py]: the two
    managers [ProjectArtifactManager] and [ProjectJobArtifactManager], their
    [download], [raw], [delete] and [__call__] methods, and the parts of the
    library they lean on (keyword passing of a Python call, the HTTP client,
    the error decorator, the response materializer, path templates).

    A Python call is modelled by what it emits and what it gives back: the
    ordered list of events (HTTP calls, chunk-handler calls, warnings)
    together with either the returned value or the raised exception. *)

From Stdlib Require Import ZArith List String Ascii Lia Bool.
From Stdlib.Strings Require Import Byte.
From stdpp Require Import base option gmap strings list fin_maps.
From Equations Require Import Equations.

(** ** Python values, events and exceptions *)

(** The values that travel through [*args] and [**kwargs] ([Any] in the
    source).  A callable is known by its name only: calling it is an event. *)
Inductive pyval :=
| PyNone
| PyBool (b : bool)
| PyInt (z : Z)
| PyStr (s : string)
| PyCallable (name : string).

Inductive http_verb := GET | DELETE.

(** One call of the HTTP client: the positional path and every keyword
    argument written at the call site, after [**kwargs] was spliced in. *)
Record http_call := HttpCall {
  verb : http_verb;
  call_path : string;
  keywords : gmap string pyval
}.

Inductive warning_category := DeprecationWarning.

Inductive event :=
| Http (c : http_call)
| Action (name : string) (chunk : list byte)
| Warning (category : warning_category) (message : string).

Inductive exn :=
| TypeError (detail : string)
| KeyError (key : string)
| AssertionError
| GitlabAuthenticationError (response_code : Z) (error_message : string)
| GitlabHttpError (response_code : Z) (error_message : string)
| GitlabGetError (response_code : Z) (error_message : string)
| GitlabDeleteError (response_code : Z) (error_message : string)
| OutsideAnnotations (parameter : string).

Inductive outcome (A : Type) :=
| Returns (a : A)
| Raises (e : exn).
Arguments Returns {A} a.
Arguments Raises {A} e.

(** ** The monad of Python calls: emitted events, then the outcome *)

Definition M (A : Type) : Type := (list event * outcome A)%type.

Definition ret {A} (a : A) : M A := ([], Returns a).
Definition raise {A} (e : exn) : M A := ([], Raises e).
Definition emit (e : event) : M unit := ([e], Returns tt).

Definition bind {A B} (m : M A) (f : A -> M B) : M B :=
  match m with
  | (t, Returns a) => let '(t', r) := f a in (t ++ t', r)
  | (t, Raises e) => (t, Raises e)
  end.

Notation "x <- c1 ;; c2" := (bind c1 (fun x => c2))
  (at level 100, c1 at next level, right associativity).
Notation "c1 ;;; c2" := (bind c1 (fun _ => c2))
  (at level 100, right associativity).

Definition events {A} (m : M A) : list event := fst m.
Definition result {A} (m : M A) : outcome A := snd m.

(** The HTTP calls, the chunk-handler calls and the warnings among some
    events. *)
Fixpoint http_calls (t : list event) : list http_call :=
  match t with
  | [] => []
  | Http c :: t' => c :: http_calls t'
  | _ :: t' => http_calls t'
  end.

Fixpoint action_calls (t : list event) : list (string * list byte) :=
  match t with
  | [] => []
  | Action h c :: t' => (h, c) :: action_calls t'
  | _ :: t' => action_calls t'
  end.

Fixpoint notices (t : list event) : list (warning_category * string) :=
  match t with
  | [] => []
  | Warning c m :: t' => (c, m) :: notices t'
  | _ :: t' => notices t'
  end.

(** [typing.TYPE_CHECKING] is [False] when the program runs. *)
Definition TYPE_CHECKING : bool := false.

(** ** Python's call protocol *)

(** [f(path, k1=v1, ..., **kwargs)]: the keywords written out and the ones
    spliced from [kwargs] form one mapping; a keyword given twice is a
    [TypeError], raised before [f] is entered. *)
Definition pass_keywords (explicit : list (string * pyval))
    (kwargs : gmap string pyval) : M (gmap string pyval) :=
  match List.find (fun k => bool_decide (is_Some (kwargs !! k))) (explicit.*1) with
  | Some k => raise (TypeError k)
  | None => ret (list_to_map explicit ∪ kwargs)
  end.

(** A signature [def f(self, p1, p2=d2, ..., *, k1=e1, **kwargs)]: the
    parameters that can be given by position, and the keyword-only ones,
    each with its default if it has one. *)
Record py_signature := {
  positional : list (string * option pyval);
  keyword_only : list (string * option pyval)
}.

Fixpoint fill_defaults (params : list (string * option pyval))
    (given : gmap string pyval) : M (gmap string pyval) :=
  match params with
  | [] => ret ∅
  | (name, dflt) :: rest =>
      v <- match given !! name, dflt with
           | Some v, _ => ret v
           | None, Some d => ret d
           | None, None => raise (TypeError name)
           end ;;
      bound <- fill_defaults rest given ;;
      ret (<[name := v]> bound)
  end.

(** The receiver [self] is the first parameter of every method and is bound
    by the method call itself: a keyword [self] gives it a second time. *)
Definition names_receiver (kwargs : gmap string pyval) : bool :=
  bool_decide (is_Some (kwargs !! "self")).

(** Binding of a call with positional arguments [args] and keywords
    [kwargs] against a signature: the bound parameters and what is left for
    [**kwargs].  Too many positional arguments, a parameter given twice (the
    receiver by keyword, another one by position and by keyword), and a
    parameter without default that is not given are [TypeError]s, raised
    before the body is entered. *)
Definition bind_arguments (sig : py_signature) (args : list pyval)
    (kwargs : gmap string pyval) : M (gmap string pyval * gmap string pyval) :=
  let names := (positional sig).*1 in
  let params := names ++ (keyword_only sig).*1 in
  if (length names <? length args)%nat then raise (TypeError "positional")
  else if names_receiver kwargs then raise (TypeError "self")
  else
    let by_position : gmap string pyval := list_to_map (zip names args) in
    match List.find (fun k => bool_decide (is_Some (by_position !! k))
                              && bool_decide (is_Some (kwargs !! k))) names with
    | Some k => raise (TypeError k)
    | None =>
        let by_keyword := filter (fun kv => kv.1 ∈ params) kwargs in
        let extra := filter (fun kv => kv.1 ∉ params) kwargs in
        bound <- fill_defaults (positional sig ++ keyword_only sig)
                   (by_position ∪ by_keyword) ;;
        ret (bound, extra)
    end.

(** Reading a bound parameter at the type its annotation gives.  Python does
    not check annotations; a call that passes anything else is outside what
    this development follows, and is reported as [OutsideAnnotations]. *)
Definition arg_str (bound : gmap string pyval) (name : string) : M string :=
  match bound !! name with
  | Some (PyStr s) => ret s
  | _ => raise (OutsideAnnotations name)
  end.

Definition arg_bool (bound : gmap string pyval) (name : string) : M bool :=
  match bound !! name with
  | Some (PyBool b) => ret b
  | _ => raise (OutsideAnnotations name)
  end.

Definition arg_int (bound : gmap string pyval) (name : string) : M Z :=
  match bound !! name with
  | Some (PyInt z) => ret z
  | _ => raise (OutsideAnnotations name)
  end.

Definition arg_callable (bound : gmap string pyval) (name : string)
    : M (option string) :=
  match bound !! name with
  | Some PyNone => ret None
  | Some (PyCallable h) => ret (Some h)
  | _ => raise (OutsideAnnotations name)
  end.

(** The parameters the four fetch methods share, [streamed], [action],
    [chunk_size] and [iterator], and what [**kwargs] received. *)
Record fetch_options := {
  opt_streamed : bool;
  opt_action : option string;
  opt_chunk_size : Z;
  opt_iterator : bool;
  opt_kwargs : gmap string pyval
}.

Definition read_options (b : gmap string pyval * gmap string pyval)
    : M fetch_options :=
  streamed <- arg_bool b.1 "streamed" ;;
  action <- arg_callable b.1 "action" ;;
  chunk_size <- arg_int b.1 "chunk_size" ;;
  iterator <- arg_bool b.1 "iterator" ;;
  ret {| opt_streamed := streamed; opt_action := action;
         opt_chunk_size := chunk_size; opt_iterator := iterator;
         opt_kwargs := b.2 |}.

(** ** The HTTP client ([self.gitlab]) *)

(** What the remote platform answers to a call: status, body, and the
    message it sends with an error status ([requests.Response]). *)
Record Response := {
  status_code : Z;
  content : list byte;
  reason : string
}.

(** The client object [gitlab.Gitlab], reduced to the platform behind it. *)
Record Gitlab := { remote : http_call -> Response }.

Definition is_success (status : Z) : bool :=
  (200 <=? status)%Z && (status <? 300)%Z.

(** Modelled from the spec: [Gitlab.http_request], [Gitlab.http_get] and
    [Gitlab.http_delete] of [gitlab/client.py], which is not among the
    sources.  The client performs the request and translates every status
    outside 2xx into an error: the authentication error for 401 and 403, the
    HTTP error (carrying the status; 404 is the not-found case) for the
    others.  Each call of the client is one event. *)
Definition http_request (gl : Gitlab) (c : http_call) : M Response :=
  emit (Http c) ;;;
  let r := remote gl c in
  if is_success (status_code r) then ret r
  else if (status_code r =? 401)%Z || (status_code r =? 403)%Z
       then raise (GitlabAuthenticationError (status_code r) (reason r))
       else raise (GitlabHttpError (status_code r) (reason r)).

Definition http_get (gl : Gitlab) (path : string)
    (kw : gmap string pyval) : M Response :=
  http_request gl (HttpCall GET path kw).

Definition http_delete (gl : Gitlab) (path : string)
    (kw : gmap string pyval) : M Response :=
  http_request gl (HttpCall DELETE path kw).

Module exc.

(** Modelled from the spec: the decorator [on_http_error] of
    [gitlab/exceptions.py], which is not among the sources.  The HTTP error
    of the client surfaces as the error kind the decorator names, with the
    same status and message; every other outcome passes through. *)
Definition on_http_error {A} (error : Z -> string -> exn) (f : M A) : M A :=
  match f with
  | (t, Raises (GitlabHttpError code msg)) => (t, Raises (error code msg))
  | _ => f
  end.

End exc.

(** ** Path templates and managers ([gitlab.base]) *)

(** Python's [str.format] with the fields of [data], for templates made of
    text and [{name}] fields (no escapes, no conversions: the path templates
    have none).
    [field] holds the name being read while inside braces.  A field that
    [data] lacks gives no path. *)
Fixpoint format_fields (data : string -> option string)
    (field : option string) (template : string) : option string :=
  match template with
  | EmptyString =>
      match field with None => Some EmptyString | Some _ => None end
  | String c rest =>
      match field with
      | None =>
          if Ascii.eqb c "{" then format_fields data (Some EmptyString) rest
          else if Ascii.eqb c "}" then None
          else String c <$> format_fields data None rest
      | Some name =>
          if Ascii.eqb c "}"
          then v ← data name; tail ← format_fields data None rest;
               Some (v +:+ tail)
          else format_fields data (Some (name +:+ String c EmptyString)) rest
      end
  end.

Definition format (template : string) (data : string -> option string)
    : option string :=
  format_fields data None template.

(** A manager: the client, the parent object's attributes, the class
    attributes [_path] and [_from_parent_attrs], and the path computed when
    the manager was built. *)
Record RESTManager := {
  gitlab : Gitlab;
  _parent : gmap string string;
  _path : string;
  _from_parent_attrs : gmap string string;
  _computed_path : string
}.

Definition parent_data (from_parent_attrs : gmap string string)
    (parent : gmap string string) (self_attr : string) : option string :=
  parent_attr ← from_parent_attrs !! self_attr; parent !! parent_attr.

(** Modelled from the spec: [RESTManager._compute_path] and the [path]
    property of [gitlab/base.py], which is not among the sources.  The
    placeholders of the template are substituted from the parent object's
    attributes, as [_from_parent_attrs] names them; with no argument the
    class's own [_path] is the template. *)
Definition _compute_path (self : RESTManager) (path : option string)
    : option string :=
  format (default (_path self) path)
         (parent_data (_from_parent_attrs self) (_parent self)).

Definition path (self : RESTManager) : string := _computed_path self.

(** Building a manager computes its path once, from the parent. *)
Definition __init__ (cls_path : string) (cls_from_parent_attrs : gmap string string)
    (gl : Gitlab) (parent : gmap string string) : option RESTManager :=
  p ← format cls_path (parent_data cls_from_parent_attrs parent);
  Some {| gitlab := gl; _parent := parent; _path := cls_path;
          _from_parent_attrs := cls_from_parent_attrs; _computed_path := p |}.

(** ** Materializing a response ([gitlab.utils]) *)

(** What [download] and [raw] give back: [bytes], [None], or an iterator
    over chunks, shown as the chunks it will yield. *)
Inductive payload :=
| PBytes (data : list byte)
| PNone
| PIterator (chunks : list (list byte)).

(** Consecutive slices of [n] bytes; the last one holds what is left. *)
Equations slices (n : nat) (body : list byte) : list (list byte)
  by wf (length body) lt :=
  slices 0 _ := [];
  slices (S n) [] := [];
  slices (S n) (b :: body) :=
    take (S n) (b :: body) :: slices (S n) (drop (S n) (b :: body)).
Next Obligation. rewrite length_drop. lia. Qed.

(** [response.iter_content(chunk_size=...)] of [requests]: the body in
    chunks of [chunk_size] bytes.  A size that is not positive stands for the
    whole body, as [requests] slices a body it holds. *)
Definition iter_content (response : Response) (chunk_size : Z)
    : list (list byte) :=
  slices (if (chunk_size <=? 0)%Z then length (content response)
          else Z.to_nat chunk_size)
         (content response).

Definition LF : string := String "010" EmptyString.

Module warnings.

(** [warnings.warn(message, category)] of the standard library, under the
    default filters: the warning is issued and the program goes on. *)
Definition warn (message : string) (category : warning_category) : M unit :=
  emit (Warning category message).

End warnings.

Module utils.

(** Modelled from the spec: [utils.warn] of [gitlab/utils.py], which is not
    among the sources.  It emits the notice. *)
Definition warn (message : string) (category : warning_category) : M unit :=
  warnings.warn message category.

(** The [for chunk in ...: action(chunk)] loop; with no handler the chunks
    are dropped. *)
Fixpoint feed (action : option string) (chunks : list (list byte)) : M unit :=
  match chunks with
  | [] => ret tt
  | chunk :: rest =>
      match action with
      | Some h => emit (Action h chunk)
      | None => ret tt
      end ;;;
      feed action rest
  end.

(** Modelled from the spec: [utils.response_content] of [gitlab/utils.py],
    which is not among the sources.  If the iterator is asked for, the
    response's chunk iterator is returned as it is; else if [streamed], the
    response is iterated in chunks of [chunk_size] bytes, each chunk is
    handed to the handler, and [None] is returned when the iteration is
    over; else the whole body is returned as one byte buffer. *)
Definition response_content (response : Response) (streamed : bool)
    (action : option string) (chunk_size : Z) (iterator : bool) : M payload :=
  if iterator then ret (PIterator (iter_content response chunk_size))
  else if streamed then
    feed action (iter_content response chunk_size) ;;;
    ret PNone
  else ret (PBytes (content response)).

End utils.

(** ** Custom actions ([gitlab.cli]) *)

(** The arguments of one [@cli.register_custom_action(...)]: the class the
    action is registered for, the names it declares mandatory and optional,
    and the name of the action when it is not the method's. *)
Record registration := {
  cls_names : string;
  mandatory : list string;
  optional : list string;
  custom_action : option string
}.

(** ** [class ProjectArtifactManager(RESTManager)] *)

Module ProjectArtifactManager.

Definition _path : string := "/projects/{project_id}/jobs/artifacts".
Definition _from_parent_attrs : gmap string string := {[ "project_id" := "id" ]}.

Definition new (gl : Gitlab) (parent : gmap string string) : option RESTManager :=
  __init__ _path _from_parent_attrs gl parent.

(** [delete(self, **kwargs)], under [@exc.on_http_error(exc.GitlabDeleteError)].
    A template field the parent does not supply is a [KeyError]. *)
Definition delete (self : RESTManager) (kwargs : gmap string pyval) : M unit :=
  exc.on_http_error GitlabDeleteError (
    match _compute_path self (Some "/projects/{project_id}/artifacts") with
    | None => raise (KeyError "project_id")
    | Some path =>
        _ <- http_delete (gitlab self) path kwargs ;;
        ret tt
    end).

(** [download(self, ref_name, job, streamed=False, action=None,
    chunk_size=1024, *, iterator=False, **kwargs)], under
    [@exc.on_http_error(exc.GitlabGetError)]. *)
Definition download (self : RESTManager) (ref_name job : string)
    (streamed : bool) (action : option string) (chunk_size : Z)
    (iterator : bool) (kwargs : gmap string pyval) : M payload :=
  exc.on_http_error GitlabGetError (
    let path := path self +:+ "/" +:+ ref_name +:+ "/download" in
    kw <- pass_keywords [("job", PyStr job); ("streamed", PyBool streamed);
                         ("raw", PyBool true)] kwargs ;;
    result <- http_get (gitlab self) path kw ;;
    utils.response_content result streamed action chunk_size iterator).

(** [raw(self, ref_name, artifact_path, job, streamed=False, action=None,
    chunk_size=1024, *, iterator=False, **kwargs)], under
    [@exc.on_http_error(exc.GitlabGetError)]. *)
Definition raw (self : RESTManager) (ref_name artifact_path job : string)
    (streamed : bool) (action : option string) (chunk_size : Z)
    (iterator : bool) (kwargs : gmap string pyval) : M payload :=
  exc.on_http_error GitlabGetError (
    let path := path self +:+ "/" +:+ ref_name +:+ "/raw/" +:+ artifact_path in
    kw <- pass_keywords [("streamed", PyBool streamed); ("raw", PyBool true);
                         ("job", PyStr job)] kwargs ;;
    result <- http_get (gitlab self) path kw ;;
    utils.response_content result streamed action chunk_size iterator).

Definition download_signature : py_signature := {|
  positional := [("ref_name", None); ("job", None);
                 ("streamed", Some (PyBool false)); ("action", Some PyNone);
                 ("chunk_size", Some (PyInt 1024))];
  keyword_only := [("iterator", Some (PyBool false))]
|}.

Definition raw_signature : py_signature := {|
  positional := [("ref_name", None); ("artifact_path", None); ("job", None);
                 ("streamed", Some (PyBool false)); ("action", Some PyNone);
                 ("chunk_size", Some (PyInt 1024))];
  keyword_only := [("iterator", Some (PyBool false))]
|}.

(** The decorators [@cli.register_custom_action] of [__call__], [download]
    and [raw]. *)
Definition __call___registered : list registration :=
  [{| cls_names := "Project"; mandatory := ["ref_name"; "job"];
      optional := ["job_token"]; custom_action := Some "artifacts" |}].

Definition download_registered : list registration :=
  [{| cls_names := "ProjectArtifactManager"; mandatory := ["ref_name"; "job"];
      optional := ["job_token"]; custom_action := None |}].

Definition raw_registered : list registration :=
  [{| cls_names := "ProjectArtifactManager";
      mandatory := ["ref_name"; "artifact_path"; "job"];
      optional := []; custom_action := None |}].

(** [self.download( *args, **kwargs)]: the arguments are bound against the
    signature, then the body runs. *)
Definition download_arguments (args : list pyval) (kwargs : gmap string pyval)
    : M (string * string * fetch_options) :=
  b <- bind_arguments download_signature args kwargs ;;
  ref_name <- arg_str b.1 "ref_name" ;;
  job <- arg_str b.1 "job" ;;
  o <- read_options b ;;
  ret (ref_name, job, o).

Definition call_download (self : RESTManager) (args : list pyval)
    (kwargs : gmap string pyval) : M payload :=
  a <- download_arguments args kwargs ;;
  let '(ref_name, job, o) := a in
  download self ref_name job (opt_streamed o) (opt_action o)
    (opt_chunk_size o) (opt_iterator o) (opt_kwargs o).

Definition raw_arguments (args : list pyval) (kwargs : gmap string pyval)
    : M (string * string * string * fetch_options) :=
  b <- bind_arguments raw_signature args kwargs ;;
  ref_name <- arg_str b.1 "ref_name" ;;
  artifact_path <- arg_str b.1 "artifact_path" ;;
  job <- arg_str b.1 "job" ;;
  o <- read_options b ;;
  ret (ref_name, artifact_path, job, o).

Definition call_raw (self : RESTManager) (args : list pyval)
    (kwargs : gmap string pyval) : M payload :=
  a <- raw_arguments args kwargs ;;
  let '(ref_name, artifact_path, job, o) := a in
  raw self ref_name artifact_path job (opt_streamed o) (opt_action o)
    (opt_chunk_size o) (opt_iterator o) (opt_kwargs o).

(** [__call__(self, *args, **kwargs)], the deprecated way of downloading.
    Its own signature takes any arguments but the receiver by keyword. *)
Definition __call__ (self : RESTManager) (args : list pyval)
    (kwargs : gmap string pyval) : M payload :=
  if names_receiver kwargs then raise (TypeError "self")
  else
    utils.warn
      ("The project.artifacts() method is deprecated and will be removed in a "
       +:+ "future version. Use project.artifacts.download() instead." +:+ LF)
      DeprecationWarning ;;;
    data <- call_download self args kwargs ;;
    (if TYPE_CHECKING
     then match data with PBytes _ => ret tt | _ => raise AssertionError end
     else ret tt) ;;;
    ret data.

End ProjectArtifactManager.

(** ** [class ProjectJobArtifactManager(RESTManager)] *)

Module ProjectJobArtifactManager.

Definition _path : string := "/projects/{project_id}/jobs/{job_id}/artifacts".
Definition _from_parent_attrs : gmap string string :=
  {[ "project_id" := "project_id"; "job_id" := "id" ]}.

Definition new (gl : Gitlab) (parent : gmap string string) : option RESTManager :=
  __init__ _path _from_parent_attrs gl parent.

(** [download(self, streamed=False, action=None, chunk_size=1024,
    iterator=False, **kwargs)], under
    [@exc.on_http_error(exc.GitlabGetError)]. *)
Definition download (self : RESTManager) (streamed : bool)
    (action : option string) (chunk_size : Z) (iterator : bool)
    (kwargs : gmap string pyval) : M payload :=
  exc.on_http_error GitlabGetError (
    kw <- pass_keywords [("streamed", PyBool streamed); ("raw", PyBool true)]
            kwargs ;;
    result <- http_get (gitlab self) (path self) kw ;;
    utils.response_content result streamed action chunk_size iterator).

(** [raw(self, path, streamed=False, action=None, chunk_size=1024,
    iterator=False, **kwargs)], under
    [@exc.on_http_error(exc.GitlabGetError)].  The source rebinds its
    parameter [path] to the request path; the parameter is [path_] here. *)
Definition raw (self : RESTManager) (path_ : string) (streamed : bool)
    (action : option string) (chunk_size : Z) (iterator : bool)
    (kwargs : gmap string pyval) : M payload :=
  exc.on_http_error GitlabGetError (
    let path := path self +:+ "/" +:+ path_ in
    kw <- pass_keywords [("streamed", PyBool streamed); ("raw", PyBool true)]
            kwargs ;;
    result <- http_get (gitlab self) path kw ;;
    utils.response_content result streamed action chunk_size iterator).

Definition download_signature : py_signature := {|
  positional := [("streamed", Some (PyBool false)); ("action", Some PyNone);
                 ("chunk_size", Some (PyInt 1024));
                 ("iterator", Some (PyBool false))];
  keyword_only := []
|}.

Definition raw_signature : py_signature := {|
  positional := [("path", None);
                 ("streamed", Some (PyBool false)); ("action", Some PyNone);
                 ("chunk_size", Some (PyInt 1024));
                 ("iterator", Some (PyBool false))];
  keyword_only := []
|}.

(** The decorators [@cli.register_custom_action] of [__call__], [download]
    and [raw]; [raw] carries two. *)
Definition __call___registered : list registration :=
  [{| cls_names := "ProjectJob"; mandatory := []; optional := [];
      custom_action := Some "artifacts" |}].

Definition download_registered : list registration :=
  [{| cls_names := "ProjectJobArtifactManager"; mandatory := [];
      optional := []; custom_action := None |}].

Definition raw_registered : list registration :=
  [{| cls_names := "ProjectJobArtifactManager"; mandatory := ["artifact_path"];
      optional := []; custom_action := None |};
   {| cls_names := "ProjectJob"; mandatory := []; optional := [];
      custom_action := None |}].

Definition download_arguments (args : list pyval) (kwargs : gmap string pyval)
    : M fetch_options :=
  b <- bind_arguments download_signature args kwargs ;;
  read_options b.

Definition call_download (self : RESTManager) (args : list pyval)
    (kwargs : gmap string pyval) : M payload :=
  o <- download_arguments args kwargs ;;
  download self (opt_streamed o) (opt_action o) (opt_chunk_size o)
    (opt_iterator o) (opt_kwargs o).

Definition raw_arguments (args : list pyval) (kwargs : gmap string pyval)
    : M (string * fetch_options) :=
  b <- bind_arguments raw_signature args kwargs ;;
  path_ <- arg_str b.1 "path" ;;
  o <- read_options b ;;
  ret (path_, o).

Definition call_raw (self : RESTManager) (args : list pyval)
    (kwargs : gmap string pyval) : M payload :=
  a <- raw_arguments args kwargs ;;
  let '(path_, o) := a in
  raw self path_ (opt_streamed o) (opt_action o) (opt_chunk_size o)
    (opt_iterator o) (opt_kwargs o).

(** [__call__(self, *args, **kwargs)], the deprecated way of downloading.
    Its own signature takes any arguments but the receiver by keyword. *)
Definition __call__ (self : RESTManager) (args : list pyval)
    (kwargs : gmap string pyval) : M payload :=
  if names_receiver kwargs then raise (TypeError "self")
  else
    warnings.warn
      ("The job.artifacts() method is deprecated and will be "
       +:+ "removed in a future version. Use job.artifacts.download() instead."
       +:+ LF)
      DeprecationWarning ;;;
    call_download self args kwargs.

End ProjectJobArtifactManager.

(** ** Vocabulary for the statements *)

(** The four fetch operations, with the arguments that identify what is
    fetched. *)
Inductive fetch :=
| ArtifactDownload (ref_name job : string)
| ArtifactRaw (ref_name artifact_path job : string)
| JobArtifactDownload
| JobArtifactRaw (path_ : string).

Definition perform (op : fetch) (self : RESTManager) (streamed : bool)
    (action : option string) (chunk_size : Z) (iterator : bool)
    (kwargs : gmap string pyval) : M payload :=
  match op with
  | ArtifactDownload ref_name job =>
      ProjectArtifactManager.download self ref_name job
        streamed action chunk_size iterator kwargs
  | ArtifactRaw ref_name artifact_path job =>
      ProjectArtifactManager.raw self ref_name artifact_path job
        streamed action chunk_size iterator kwargs
  | JobArtifactDownload =>
      ProjectJobArtifactManager.download self
        streamed action chunk_size iterator kwargs
  | JobArtifactRaw path_ =>
      ProjectJobArtifactManager.raw self path_
        streamed action chunk_size iterator kwargs
  end.

(** The shape the four bodies share: keywords, one GET, materialization,
    all under the decorator. *)
Definition fetch_request (gl : Gitlab) (path : string)
    (explicit : list (string * pyval)) (kwargs : gmap string pyval)
    (streamed : bool) (action : option string) (chunk_size : Z)
    (iterator : bool) : M payload :=
  exc.on_http_error GitlabGetError (
    kw <- pass_keywords explicit kwargs ;;
    result <- http_get gl path kw ;;
    utils.response_content result streamed action chunk_size iterator).

Definition target (op : fetch) (self : RESTManager) : string :=
  match op with
  | ArtifactDownload ref_name _ => path self +:+ "/" +:+ ref_name +:+ "/download"
  | ArtifactRaw ref_name artifact_path _ =>
      path self +:+ "/" +:+ ref_name +:+ "/raw/" +:+ artifact_path
  | JobArtifactDownload => path self
  | JobArtifactRaw path_ => path self +:+ "/" +:+ path_
  end.

Definition written_keywords (op : fetch) (streamed : bool)
    : list (string * pyval) :=
  match op with
  | ArtifactDownload _ job =>
      [("job", PyStr job); ("streamed", PyBool streamed); ("raw", PyBool true)]
  | ArtifactRaw _ _ job =>
      [("streamed", PyBool streamed); ("raw", PyBool true); ("job", PyStr job)]
  | JobArtifactDownload | JobArtifactRaw _ =>
      [("streamed", PyBool streamed); ("raw", PyBool true)]
  end.

(** The call of the client that the arguments of an operation describe, and
    whether the extra options leave the keywords it writes alone. *)
Definition request (op : fetch) (self : RESTManager) (streamed : bool)
    (kwargs : gmap string pyval) : http_call :=
  HttpCall GET (target op self)
    (list_to_map (written_keywords op streamed) ∪ kwargs).

Definition repeats_none (op : fetch) (streamed : bool)
    (kwargs : gmap string pyval) : bool :=
  forallb (fun k => bool_decide (kwargs !! k = None))
    (written_keywords op streamed).*1.

(** What a materialized response hands to the handler, and what it gives
    back. *)
Definition delivered (r : Response) (streamed : bool) (action : option string)
    (chunk_size : Z) (iterator : bool) : list event :=
  if iterator then []
  else if streamed then
    match action with
    | Some h => map (Action h) (iter_content r chunk_size)
    | None => []
    end
  else [].

Definition materialized (r : Response) (streamed : bool) (chunk_size : Z)
    (iterator : bool) : payload :=
  if iterator then PIterator (iter_content r chunk_size)
  else if streamed then PNone
  else PBytes (content r).

(** What the client answers to a call: the response, or the error it
    reports. *)
Definition reports_success (gl : Gitlab) (c : http_call) : Prop :=
  is_success (status_code (remote gl c)) = true.

Definition reports_authentication_failure (gl : Gitlab) (c : http_call) : Prop :=
  status_code (remote gl c) = 401%Z \/ status_code (remote gl c) = 403%Z.

Definition reports_rejection (gl : Gitlab) (c : http_call) : Prop :=
  is_success (status_code (remote gl c)) = false
  /\ status_code (remote gl c) <> 401%Z /\ status_code (remote gl c) <> 403%Z.

(** Objects for the examples: a project numbered 42 and its job 7, on a
    platform that serves six bytes for a download, nothing for a raw file,
    refuses credentials under [/private], and knows no other path. *)
Definition abc123 : list byte := list_byte_of_string "abc123".

Definition example_remote (c : http_call) : Response :=
  if String.eqb (call_path c) "/projects/42/jobs/artifacts/main/download"
  then {| status_code := 200; content := abc123; reason := "OK" |}
  else if String.eqb (call_path c) "/projects/42/jobs/7/artifacts"
  then {| status_code := 200; content := abc123; reason := "OK" |}
  else if String.eqb (call_path c) "/projects/42/jobs/artifacts/main/raw/report.xml"
  then {| status_code := 200; content := []; reason := "OK" |}
  else if String.eqb (call_path c) "/projects/42/jobs/7/artifacts/report.xml"
  then {| status_code := 200; content := []; reason := "OK" |}
  else if String.eqb (call_path c) "/projects/42/artifacts"
  then {| status_code := 204; content := []; reason := "No Content" |}
  else if String.prefix "/projects/42/jobs/artifacts/private" (call_path c)
  then {| status_code := 401; content := []; reason := "401 Unauthorized" |}
  else {| status_code := 404; content := []; reason := "404 Not Found" |}.

Definition example_gitlab : Gitlab := {| remote := example_remote |}.

Definition example_project : gmap string string := {[ "id" := "42" ]}.
Definition example_job : gmap string string :=
  {[ "project_id" := "42"; "id" := "7" ]}.

Definition example_artifacts : RESTManager := {|
  gitlab := example_gitlab;
  _parent := example_project;
  _path := ProjectArtifactManager._path;
  _from_parent_attrs := ProjectArtifactManager._from_parent_attrs;
  _computed_path := "/projects/42/jobs/artifacts"
|}.

Definition example_job_artifacts : RESTManager := {|
  gitlab := example_gitlab;
  _parent := example_job;
  _path := ProjectJobArtifactManager._path;
  _from_parent_attrs := ProjectJobArtifactManager._from_parent_attrs;
  _computed_path := "/projects/42/jobs/7/artifacts"
|}.

(** * Properties *)

(** A template filled from a parent. *)
Example format_project :
  format "/projects/{project_id}/artifacts"
    (parent_data {[ "project_id" := "id" ]} {[ "id" := "42" ]})
  = Some "/projects/42/artifacts".
Proof. vm_compute. reflexivity. Qed.

(** The example managers are the ones their classes build. *)
Example example_artifacts_built :
  ProjectArtifactManager.new example_gitlab example_project
  = Some example_artifacts.
Proof. vm_compute. reflexivity. Qed.

Example example_job_artifacts_built :
  ProjectJobArtifactManager.new example_gitlab example_job
  = Some example_job_artifacts.
Proof. vm_compute. reflexivity. Qed.

Example download_streamed_abc123 :
  ProjectArtifactManager.download example_artifacts "main" "build"
    true (Some "h") 2 false ∅
  = ([Http (HttpCall GET "/projects/42/jobs/artifacts/main/download"
              (list_to_map [("job", PyStr "build"); ("streamed", PyBool true);
                            ("raw", PyBool true)] ∪ ∅));
      Action "h" (list_byte_of_string "ab");
      Action "h" (list_byte_of_string "c1");
      Action "h" (list_byte_of_string "23")],
     Returns PNone).
Proof. vm_compute. reflexivity. Qed.

(** ** Laws of the call monad *)

Section Monad.
Context {A B : Type}.

Lemma bind_ret_l (a : A) (f : A -> M B) : (x <- ret a ;; f x) = f a.
Proof. unfold bind, ret. destruct (f a); reflexivity. Qed.

Lemma bind_raise_l (e : exn) (f : A -> M B) : (x <- raise e ;; f x) = raise e.
Proof. reflexivity. Qed.

Lemma bind_returns (t : list event) (a : A) (f : A -> M B) :
  (x <- (t, Returns a) ;; f x) = (t ++ events (f a), result (f a)).
Proof. unfold bind, events, result. destruct (f a); reflexivity. Qed.

Lemma bind_raises (t : list event) (e : exn) (f : A -> M B) :
  (x <- (t, Raises e) ;; f x) = (t, Raises e).
Proof. reflexivity. Qed.
End Monad.

(** ** Events of a given kind *)

Lemma http_calls_actions h chunks : http_calls (map (Action h) chunks) = [].
Proof. induction chunks; simpl; auto. Qed.

Lemma action_calls_actions h chunks :
  action_calls (map (Action h) chunks) = map (pair h) chunks.
Proof. induction chunks; simpl; congruence. Qed.

(** ** Keywords of a call *)

Lemma pass_keywords_cases explicit kwargs :
  (exists k, k ∈ explicit.*1 /\ is_Some (kwargs !! k)
             /\ pass_keywords explicit kwargs = raise (TypeError k))
  \/ ((forall k, k ∈ explicit.*1 -> kwargs !! k = None)
      /\ pass_keywords explicit kwargs = ret (list_to_map explicit ∪ kwargs)).
Proof.
  unfold pass_keywords.
  destruct (List.find _ _) as [k|] eqn:E.
  - apply find_some in E as [Hin Hk]. left. exists k.
    apply bool_decide_eq_true in Hk. rewrite list_elem_of_In. auto.
  - right. split; [|reflexivity]. intros k Hin.
    apply list_elem_of_In in Hin.
    pose proof (find_none _ _ E k Hin) as Hk. simpl in Hk.
    apply bool_decide_eq_false in Hk.
    destruct (kwargs !! k) eqn:Hl; [|reflexivity]. exfalso. apply Hk. eauto.
Qed.

(** ** The materializer *)

Lemma feed_run action chunks :
  utils.feed action chunks
  = (match action with Some h => map (Action h) chunks | None => [] end,
     Returns tt).
Proof.
  induction chunks as [|c cs IH]; simpl.
  - destruct action; reflexivity.
  - rewrite IH. destruct action; reflexivity.
Qed.

Lemma response_content_run r streamed action chunk_size iterator :
  utils.response_content r streamed action chunk_size iterator
  = (delivered r streamed action chunk_size iterator,
     Returns (materialized r streamed chunk_size iterator)).
Proof.
  unfold utils.response_content, delivered, materialized.
  destruct iterator; [reflexivity|].
  destruct streamed; [|reflexivity].
  rewrite feed_run. destruct action; simpl; rewrite ?app_nil_r; reflexivity.
Qed.

Lemma delivered_http r streamed action chunk_size iterator :
  http_calls (delivered r streamed action chunk_size iterator) = [].
Proof.
  unfold delivered. destruct iterator, streamed, action; simpl;
    auto using http_calls_actions.
Qed.

(** ** One fetch, case by case *)

Lemma auth_status_not_success status :
  status = 401%Z \/ status = 403%Z -> is_success status = false.
Proof. intros [-> | ->]; reflexivity. Qed.

Lemma perform_fetch_request op self streamed action chunk_size iterator kwargs :
  perform op self streamed action chunk_size iterator kwargs
  = fetch_request (gitlab self) (target op self)
      (written_keywords op streamed) kwargs streamed action chunk_size iterator.
Proof. destruct op; reflexivity. Qed.

Lemma fetch_request_cases gl path explicit kwargs streamed action chunk_size iterator :
  let run := fetch_request gl path explicit kwargs streamed action chunk_size iterator in
  let c := HttpCall GET path (list_to_map explicit ∪ kwargs) in
  let r := remote gl c in
  (exists k, k ∈ explicit.*1 /\ is_Some (kwargs !! k) /\ run = raise (TypeError k))
  \/ ((forall k, k ∈ explicit.*1 -> kwargs !! k = None)
      /\ ((reports_success gl c
           /\ run = (Http c :: delivered r streamed action chunk_size iterator,
                     Returns (materialized r streamed chunk_size iterator)))
          \/ (reports_authentication_failure gl c
              /\ run = ([Http c],
                        Raises (GitlabAuthenticationError (status_code r) (reason r))))
          \/ (reports_rejection gl c
              /\ run = ([Http c],
                        Raises (GitlabGetError (status_code r) (reason r)))))).
Proof.
  intros run c r. subst run. unfold fetch_request.
  destruct (pass_keywords_cases explicit kwargs) as [(k & Hin & Hk & ->) | [Hfree ->]].
  - left. exists k. auto.
  - right. split; [exact Hfree|].
    rewrite bind_ret_l. unfold http_get, http_request, emit.
    rewrite bind_returns. fold c. fold r.
    unfold reports_success, reports_authentication_failure, reports_rejection.
    fold r.
    destruct (is_success (status_code r)) eqn:Hs.
    + left. split; [reflexivity|].
      unfold ret, events, result; simpl.
      rewrite response_content_run. reflexivity.
    + right.
      destruct ((status_code r =? 401)%Z || (status_code r =? 403)%Z) eqn:Ha.
      * left. split; [|reflexivity].
        apply orb_true_iff in Ha as [Ha | Ha]; apply Z.eqb_eq in Ha; auto.
      * right. apply orb_false_iff in Ha as [H1 H3].
        apply Z.eqb_neq in H1, H3. split; [auto|reflexivity].
Qed.

Lemma perform_cases op self streamed action chunk_size iterator kwargs :
  let run := perform op self streamed action chunk_size iterator kwargs in
  let c := HttpCall GET (target op self)
             (list_to_map (written_keywords op streamed) ∪ kwargs) in
  let r := remote (gitlab self) c in
  (exists k, k ∈ (written_keywords op streamed).*1 /\ is_Some (kwargs !! k)
             /\ run = raise (TypeError k))
  \/ ((forall k, k ∈ (written_keywords op streamed).*1 -> kwargs !! k = None)
      /\ ((reports_success (gitlab self) c
           /\ run = (Http c :: delivered r streamed action chunk_size iterator,
                     Returns (materialized r streamed chunk_size iterator)))
          \/ (reports_authentication_failure (gitlab self) c
              /\ run = ([Http c],
                        Raises (GitlabAuthenticationError (status_code r) (reason r))))
          \/ (reports_rejection (gitlab self) c
              /\ run = ([Http c],
                        Raises (GitlabGetError (status_code r) (reason r)))))).
Proof.
  cbv zeta. rewrite perform_fetch_request. apply fetch_request_cases.
Qed.

(** ** Slices of a body *)

Lemma slices_lookup n body i :
  (0 < n)%nat ->
  slices n body !! i
  = if decide (i * n < length body)%nat
    then Some (take n (drop (i * n) body)) else None.
Proof.
  intros Hn. destruct n as [|n]; [lia|]. clear Hn.
  revert body. induction i as [|i IH]; intros [|b body]; simp slices.
  - reflexivity.
  - simpl. reflexivity.
  - reflexivity.
  - change ((take (S n) (b :: body) :: slices (S n) (drop (S n) (b :: body))) !! S i)
      with (slices (S n) (drop (S n) (b :: body)) !! i).
    rewrite IH, length_drop, drop_drop.
    replace (S n + i * S n)%nat with (S i * S n)%nat by lia.
    repeat case_decide; try reflexivity; lia.
Qed.

Lemma slices_concat n body : (0 < n)%nat -> concat (slices n body) = body.
Proof.
  intros Hn. destruct n as [|n]; [lia|]. clear Hn.
  remember (length body) as len eqn:Hlen. revert body Hlen.
  induction len as [len IH] using lt_wf_ind. intros [|b body] Hlen; simp slices.
  - reflexivity.
  - change (concat (take (S n) (b :: body) :: slices (S n) (drop (S n) (b :: body))))
      with (take (S n) (b :: body) ++ concat (slices (S n) (drop (S n) (b :: body)))).
    rewrite (IH (length (drop (S n) (b :: body)))); [apply take_drop| |reflexivity].
    rewrite length_drop. subst len. simpl. lia.
Qed.

Lemma slices_nil n : slices n [] = [].
Proof. destruct n; simp slices; reflexivity. Qed.

(** ** The fetch operations *)

Lemma repeats_none_spec op streamed (kwargs : gmap string pyval) :
  repeats_none op streamed kwargs = true
  <-> (forall k, k ∈ (written_keywords op streamed).*1 -> kwargs !! k = None).
Proof.
  unfold repeats_none. rewrite forallb_forall. split; intros H k Hin.
  - apply list_elem_of_In in Hin. apply (bool_decide_eq_true_1 _ (H k Hin)).
  - apply list_elem_of_In in Hin. apply bool_decide_eq_true_2. auto.
Qed.

(** What an operation does once the extra options repeat no written
    keyword, by what the client answers to the call its arguments describe. *)
Lemma perform_answered op self streamed action chunk_size iterator kwargs :
  repeats_none op streamed kwargs = true ->
  reports_success (gitlab self) (request op self streamed kwargs) ->
  perform op self streamed action chunk_size iterator kwargs
  = (Http (request op self streamed kwargs)
       :: delivered (remote (gitlab self) (request op self streamed kwargs))
            streamed action chunk_size iterator,
     Returns (materialized (remote (gitlab self) (request op self streamed kwargs))
                streamed chunk_size iterator)).
Proof.
  intros Hfree Hs. pose proof (proj1 (repeats_none_spec _ _ _) Hfree) as Hno.
  clear Hfree. rename Hno into Hfree.
  destruct (perform_cases op self streamed action chunk_size iterator kwargs)
    as [(k & Hin & [v Hk] & _) | [_ [[_ E] | [[Ha _] | [[Hr _] _]]]]].
  - rewrite (Hfree k Hin) in Hk. discriminate.
  - exact E.
  - apply auth_status_not_success in Ha. unfold reports_success, request in Hs.
    congruence.
  - unfold reports_success, request in Hs. congruence.
Qed.

Lemma perform_rejected op self streamed action chunk_size iterator kwargs :
  repeats_none op streamed kwargs = true ->
  reports_rejection (gitlab self) (request op self streamed kwargs) ->
  perform op self streamed action chunk_size iterator kwargs
  = ([Http (request op self streamed kwargs)],
     Raises (GitlabGetError
               (status_code (remote (gitlab self) (request op self streamed kwargs)))
               (reason (remote (gitlab self) (request op self streamed kwargs))))).
Proof.
  intros Hfree [Hr [H1 H3]].
  pose proof (proj1 (repeats_none_spec _ _ _) Hfree) as Hno.
  clear Hfree. rename Hno into Hfree.
  destruct (perform_cases op self streamed action chunk_size iterator kwargs)
    as [(k & Hin & [v Hk] & _) | [_ [[Hs _] | [[Ha _] | [_ E]]]]].
  - rewrite (Hfree k Hin) in Hk. discriminate.
  - unfold reports_success in Hs. unfold request in Hr. congruence.
  - unfold request in H1, H3. destruct Ha; contradiction.
  - exact E.
Qed.

Lemma perform_unauthorized op self streamed action chunk_size iterator kwargs :
  repeats_none op streamed kwargs = true ->
  reports_authentication_failure (gitlab self) (request op self streamed kwargs) ->
  perform op self streamed action chunk_size iterator kwargs
  = ([Http (request op self streamed kwargs)],
     Raises (GitlabAuthenticationError
               (status_code (remote (gitlab self) (request op self streamed kwargs)))
               (reason (remote (gitlab self) (request op self streamed kwargs))))).
Proof.
  intros Hfree Ha. pose proof (proj1 (repeats_none_spec _ _ _) Hfree) as Hno.
  clear Hfree. rename Hno into Hfree.
  destruct (perform_cases op self streamed action chunk_size iterator kwargs)
    as [(k & Hin & [v Hk] & _) | [_ [[Hs _] | [[_ E] | [[Hr [H1 H3]] _]]]]].
  - rewrite (Hfree k Hin) in Hk. discriminate.
  - apply auth_status_not_success in Ha. unfold reports_success in Hs.
    unfold request in Ha. congruence.
  - exact E.
  - unfold request in Ha. destruct Ha; contradiction.
Qed.

Lemma perform_repeating op self streamed action chunk_size iterator kwargs :
  repeats_none op streamed kwargs = false ->
  exists k, perform op self streamed action chunk_size iterator kwargs
            = ([], Raises (TypeError k)).
Proof.
  intros Hrep.
  destruct (perform_cases op self streamed action chunk_size iterator kwargs)
    as [(k & _ & _ & E) | [Hfree _]]; [eauto|].
  pose proof (proj2 (repeats_none_spec _ _ _) Hfree). congruence.
Qed.

(** C2.  Whatever response the client hands back, and whatever the flags
    [streamed] and [iterator] are, each of the four download/raw operations
    makes its one call and materializes the response by this precedence:
    with [iterator], the chunk iterator of the response is returned and
    nothing else happens, no handler is called, whatever [streamed] says;
    else with [streamed], every chunk goes to the handler (or nowhere, if
    there is none) and [None] is returned; else the whole body is returned
    as bytes.  The response is the one the client gives to the call that the
    arguments describe, the extra options repeating no written keyword. *)
Theorem materialization_precedence
    op self streamed action chunk_size iterator kwargs :
  let c := request op self streamed kwargs in
  let r := remote (gitlab self) c in
  let run := perform op self streamed action chunk_size iterator kwargs in
  repeats_none op streamed kwargs = true ->
  reports_success (gitlab self) c ->
  http_calls (events run) = [c]
  /\ (iterator = true ->
      run = ([Http c], Returns (PIterator (iter_content r chunk_size))))
  /\ (iterator = false -> streamed = true ->
      run = (Http c :: match action with
                       | Some h => map (Action h) (iter_content r chunk_size)
                       | None => []
                       end,
             Returns PNone))
  /\ (iterator = false -> streamed = false ->
      run = ([Http c], Returns (PBytes (content r)))).
Proof.
  intros c r run Hfree Hs. subst run.
  rewrite (perform_answered _ _ _ _ _ _ _ Hfree Hs). fold c. fold r.
  unfold events, delivered, materialized. simpl.
  repeat split.
  - destruct iterator, streamed, action; simpl;
      rewrite ?http_calls_actions; reflexivity.
  - intros ->. reflexivity.
  - intros -> ->. reflexivity.
  - intros -> ->. reflexivity.
Qed.

Lemma materialization_precedence_witness :
  (let c := request (ArtifactDownload "main" "build") example_artifacts true ∅ in
   let run := ProjectArtifactManager.download example_artifacts "main" "build"
                true (Some "h") 2 true ∅ in
   repeats_none (ArtifactDownload "main" "build") true ∅ = true
   /\ reports_success example_gitlab c
   /\ run = ([Http c],
             Returns (PIterator (map list_byte_of_string ["ab"; "c1"; "23"]))))
  /\ (let c := request JobArtifactDownload example_job_artifacts true ∅ in
      let run := ProjectJobArtifactManager.download example_job_artifacts
                   true (Some "h") 3 false ∅ in
      repeats_none JobArtifactDownload true ∅ = true
      /\ reports_success example_gitlab c
      /\ run = ([Http c; Action "h" (list_byte_of_string "abc");
                 Action "h" (list_byte_of_string "123")],
                Returns PNone)).
Proof.
  split.
  - intros c run.
    assert (H1 : repeats_none (ArtifactDownload "main" "build") true ∅ = true)
      by (vm_compute; reflexivity).
    assert (H2 : reports_success (gitlab example_artifacts) c)
      by (vm_compute; reflexivity).
    split; [exact H1|]. split; [exact H2|].
    pose proof (proj1 (proj2 (materialization_precedence
                                (ArtifactDownload "main" "build") example_artifacts
                                true (Some "h") 2 true ∅ H1 H2)) eq_refl) as H.
    vm_compute in H |- *. exact H.
  - intros c run.
    assert (H1 : repeats_none JobArtifactDownload true ∅ = true)
      by (vm_compute; reflexivity).
    assert (H2 : reports_success (gitlab example_job_artifacts) c)
      by (vm_compute; reflexivity).
    split; [exact H1|]. split; [exact H2|].
    pose proof (proj1 (proj2 (proj2 (materialization_precedence
                                JobArtifactDownload example_job_artifacts
                                true (Some "h") 3 false ∅ H1 H2))) eq_refl eq_refl)
      as H.
    vm_compute in H |- *. exact H.
Defined.

(** C3.  For every body the client hands back and every positive
    [chunk_size] N, a fetch (download in particular) with [streamed=True]
    and a handler [h] makes its one call and then calls [h] once per block
    of N bytes of the body, in the order of the body: the i-th call gets the
    bytes from i*N up to (i+1)*N, the last one what is left.  The chunks put
    together are the body, the call returns [None], and for an empty body
    [h] is never called.  The body is the one of the 2xx response to the
    call that the arguments describe, the extra options repeating no
    written keyword; the handler is one that returns. *)
Theorem streamed_download_feeds_handler op self h chunk_size kwargs :
  let c := request op self true kwargs in
  let body := content (remote (gitlab self) c) in
  let N := Z.to_nat chunk_size in
  let run := perform op self true (Some h) chunk_size false kwargs in
  (0 < chunk_size)%Z ->
  repeats_none op true kwargs = true ->
  reports_success (gitlab self) c ->
  exists chunks,
    run = (Http c :: map (Action h) chunks, Returns PNone)
    /\ action_calls (events run) = map (pair h) chunks
    /\ concat chunks = body
    /\ (forall i, chunks !! i
                  = if decide (i * N < length body)%nat
                    then Some (take N (drop (i * N) body)) else None)
    /\ (body = [] -> chunks = []).
Proof.
  intros c body N run HN Hfree Hs. subst run.
  rewrite (perform_answered _ _ _ _ _ _ _ Hfree Hs). fold c.
  unfold events, delivered, materialized; simpl.
  rewrite action_calls_actions. unfold iter_content.
  destruct (Z.leb_spec chunk_size 0) as [Hle|_]; [lia|].
  fold body. fold N. assert (0 < N)%nat by (subst N; lia).
  exists (slices N body). repeat split.
  - apply slices_concat; assumption.
  - intros i. apply slices_lookup; assumption.
  - intros Hb. rewrite Hb. apply slices_nil.
Qed.

Lemma streamed_download_feeds_handler_witness :
  (let c := request (ArtifactDownload "main" "build") example_artifacts true ∅ in
   let run := ProjectArtifactManager.download example_artifacts "main" "build"
                true (Some "h") 2 false ∅ in
   (0 < 2)%Z
   /\ repeats_none (ArtifactDownload "main" "build") true ∅ = true
   /\ reports_success example_gitlab c
   /\ exists chunks,
        run = (Http c :: map (Action "h") chunks, Returns PNone)
        /\ action_calls (events run) = map (pair "h") chunks
        /\ concat chunks = abc123
        /\ (forall i, chunks !! i
                      = if decide (i * 2 < 6)%nat
                        then Some (take 2 (drop (i * 2) abc123)) else None)
        /\ (abc123 = [] -> chunks = []))
  /\ (let c := request JobArtifactDownload example_job_artifacts true ∅ in
      let run := ProjectJobArtifactManager.download example_job_artifacts
                   true (Some "h") 4 false ∅ in
      (0 < 4)%Z
      /\ repeats_none JobArtifactDownload true ∅ = true
      /\ reports_success example_gitlab c
      /\ exists chunks,
           run = (Http c :: map (Action "h") chunks, Returns PNone)
           /\ action_calls (events run) = map (pair "h") chunks
           /\ concat chunks = abc123
           /\ (forall i, chunks !! i
                         = if decide (i * 4 < 6)%nat
                           then Some (take 4 (drop (i * 4) abc123)) else None)
           /\ (abc123 = [] -> chunks = [])).
Proof.
  split.
  - intros c run.
    assert (H0 : (0 < 2)%Z) by lia.
    assert (H1 : repeats_none (ArtifactDownload "main" "build") true ∅ = true)
      by (vm_compute; reflexivity).
    assert (H2 : reports_success (gitlab example_artifacts) c)
      by (vm_compute; reflexivity).
    split; [exact H0|]. split; [exact H1|]. split; [exact H2|].
    pose proof (streamed_download_feeds_handler (ArtifactDownload "main" "build")
                  example_artifacts "h" 2 ∅ H0 H1 H2) as H.
    vm_compute in H |- *. exact H.
  - intros c run.
    assert (H0 : (0 < 4)%Z) by lia.
    assert (H1 : repeats_none JobArtifactDownload true ∅ = true)
      by (vm_compute; reflexivity).
    assert (H2 : reports_success (gitlab example_job_artifacts) c)
      by (vm_compute; reflexivity).
    split; [exact H0|]. split; [exact H1|]. split; [exact H2|].
    pose proof (streamed_download_feeds_handler JobArtifactDownload
                  example_job_artifacts "h" 4 ∅ H0 H1 H2) as H.
    vm_compute in H |- *. exact H.
Defined.

(** The scenario of the specification: six bytes, chunks of two. *)
Example handler_receives_ab_c1_23 :
  action_calls (events (ProjectArtifactManager.download example_artifacts
                          "main" "build" true (Some "h") 2 false ∅))
  = [("h", list_byte_of_string "ab"); ("h", list_byte_of_string "c1");
     ("h", list_byte_of_string "23")].
Proof. vm_compute. reflexivity. Qed.

(** C4.  For every successful (2xx) response, a download or raw in buffered
    mode ([streamed] and [iterator] both false) makes its one call and
    returns the whole body as one byte buffer: never [None], of the body's
    length, and the empty buffer for an empty body.  No handler is called.
    The response is the one the client gives to the call that the arguments
    describe, the extra options repeating no written keyword. *)
Theorem buffered_returns_whole_body op self action chunk_size kwargs :
  let c := request op self false kwargs in
  let body := content (remote (gitlab self) c) in
  let run := perform op self false action chunk_size false kwargs in
  repeats_none op false kwargs = true ->
  reports_success (gitlab self) c ->
  run = ([Http c], Returns (PBytes body))
  /\ result run <> Returns PNone
  /\ (exists data, result run = Returns (PBytes data)
                   /\ length data = length body)
  /\ (body = [] -> result run = Returns (PBytes [])).
Proof.
  intros c body run Hfree Hs. subst run body.
  rewrite (perform_answered _ _ _ _ _ _ _ Hfree Hs). fold c.
  unfold events, result, delivered, materialized; simpl.
  repeat split; try discriminate; eauto.
  intros Hb. rewrite Hb. reflexivity.
Qed.

Lemma buffered_returns_whole_body_witness :
  (let c := request (ArtifactDownload "main" "build") example_artifacts false ∅ in
   let run := ProjectArtifactManager.download example_artifacts "main" "build"
                false None 1024 false ∅ in
   repeats_none (ArtifactDownload "main" "build") false ∅ = true
   /\ reports_success example_gitlab c
   /\ run = ([Http c], Returns (PBytes abc123)))
  /\ (let c := request (ArtifactRaw "main" "report.xml" "build")
                 example_artifacts false ∅ in
      let run := ProjectArtifactManager.raw example_artifacts "main"
                   "report.xml" "build" false None 1024 false ∅ in
      repeats_none (ArtifactRaw "main" "report.xml" "build") false ∅ = true
      /\ reports_success example_gitlab c
      /\ run = ([Http c], Returns (PBytes []))
      /\ result run <> Returns PNone).
Proof.
  split.
  - intros c run.
    assert (H1 : repeats_none (ArtifactDownload "main" "build") false ∅ = true)
      by (vm_compute; reflexivity).
    assert (H2 : reports_success (gitlab example_artifacts) c)
      by (vm_compute; reflexivity).
    split; [exact H1|]. split; [exact H2|].
    pose proof (proj1 (buffered_returns_whole_body (ArtifactDownload "main" "build")
                         example_artifacts None 1024 ∅ H1 H2)) as H.
    vm_compute in H |- *. exact H.
  - intros c run.
    assert (H1 : repeats_none (ArtifactRaw "main" "report.xml" "build") false ∅
                 = true) by (vm_compute; reflexivity).
    assert (H2 : reports_success (gitlab example_artifacts) c)
      by (vm_compute; reflexivity).
    split; [exact H1|]. split; [exact H2|].
    pose proof (buffered_returns_whole_body (ArtifactRaw "main" "report.xml" "build")
                  example_artifacts None 1024 ∅ H1 H2) as (Hb & Hn & _).
    split; [|exact Hn].
    vm_compute in Hb |- *. exact Hb.
Defined.

(** C5.  When the client reports that the server rejected the request (an
    HTTP error such as 404) of a download or raw, the operation raises
    [GitlabGetError] with the status and message of the rejection, after the
    one call and nothing else: no value is returned, no chunk is handed out.
    (A refusal of the credentials, 401 or 403, is the client's
    authentication error and is raised as it is, also after the one call.)
    A value is returned exactly when the client is called, the extra options
    repeating no written keyword, and reports success for the call that the
    arguments describe. *)
Theorem fetch_error_paths op self streamed action chunk_size iterator kwargs :
  let c := request op self streamed kwargs in
  let r := remote (gitlab self) c in
  let run := perform op self streamed action chunk_size iterator kwargs in
  (repeats_none op streamed kwargs = true ->
   reports_rejection (gitlab self) c ->
   run = ([Http c], Raises (GitlabGetError (status_code r) (reason r))))
  /\ (repeats_none op streamed kwargs = true ->
      reports_authentication_failure (gitlab self) c ->
      run = ([Http c],
             Raises (GitlabAuthenticationError (status_code r) (reason r))))
  /\ ((exists v, result run = Returns v)
      <-> (repeats_none op streamed kwargs = true
           /\ reports_success (gitlab self) c)).
Proof.
  intros c r run. subst run r c. repeat split.
  - apply perform_rejected.
  - apply perform_unauthorized.
  - destruct (repeats_none op streamed kwargs) eqn:Hfree; [reflexivity|].
    destruct H as [v Hv].
    destruct (perform_repeating op self streamed action chunk_size iterator
                kwargs Hfree) as [k E].
    rewrite E in Hv. discriminate.
  - destruct H as [v Hv].
    destruct (repeats_none op streamed kwargs) eqn:Hfree.
    + destruct (is_success (status_code (remote (gitlab self)
                  (request op self streamed kwargs)))) eqn:Hs; [exact Hs|].
      exfalso.
      destruct (Z.eq_dec (status_code (remote (gitlab self)
                  (request op self streamed kwargs))) 401%Z) as [H1|H1];
        [rewrite (perform_unauthorized _ _ _ _ _ _ _ Hfree (or_introl H1)) in Hv;
         discriminate|].
      destruct (Z.eq_dec (status_code (remote (gitlab self)
                  (request op self streamed kwargs))) 403%Z) as [H3|H3];
        [rewrite (perform_unauthorized _ _ _ _ _ _ _ Hfree (or_intror H3)) in Hv;
         discriminate|].
      rewrite (perform_rejected _ _ _ _ _ _ _ Hfree (conj Hs (conj H1 H3))) in Hv.
      discriminate.
    + destruct (perform_repeating op self streamed action chunk_size iterator
                  kwargs Hfree) as [k E].
      rewrite E in Hv. discriminate.
  - intros [Hfree Hs]. rewrite (perform_answered _ _ _ _ _ _ _ Hfree Hs).
    eexists. reflexivity.
Qed.

Lemma fetch_error_paths_witness :
  (let c := request (ArtifactDownload "gone" "build") example_artifacts false ∅ in
   let run := ProjectArtifactManager.download example_artifacts "gone" "build"
                false None 1024 false ∅ in
   repeats_none (ArtifactDownload "gone" "build") false ∅ = true
   /\ reports_rejection example_gitlab c
   /\ run = ([Http c], Raises (GitlabGetError 404 "404 Not Found")))
  /\ (let c := request (ArtifactRaw "gone" "report.xml" "build")
                 example_artifacts true ∅ in
      let run := ProjectArtifactManager.raw example_artifacts "gone" "report.xml"
                   "build" true (Some "h") 2 false ∅ in
      repeats_none (ArtifactRaw "gone" "report.xml" "build") true ∅ = true
      /\ reports_rejection example_gitlab c
      /\ run = ([Http c], Raises (GitlabGetError 404 "404 Not Found"))).
Proof.
  split.
  - intros c run.
    assert (H1 : repeats_none (ArtifactDownload "gone" "build") false ∅ = true)
      by (vm_compute; reflexivity).
    assert (H2 : reports_rejection (gitlab example_artifacts) c)
      by (vm_compute; repeat split; discriminate).
    split; [exact H1|]. split; [exact H2|].
    pose proof (proj1 (fetch_error_paths (ArtifactDownload "gone" "build")
                         example_artifacts false None 1024 false ∅) H1 H2) as H.
    vm_compute in H |- *. exact H.
  - intros c run.
    assert (H1 : repeats_none (ArtifactRaw "gone" "report.xml" "build") true ∅
                 = true) by (vm_compute; reflexivity).
    assert (H2 : reports_rejection (gitlab example_artifacts) c)
      by (vm_compute; repeat split; discriminate).
    split; [exact H1|]. split; [exact H2|].
    pose proof (proj1 (fetch_error_paths (ArtifactRaw "gone" "report.xml" "build")
                         example_artifacts true (Some "h") 2 false ∅) H1 H2) as H.
    vm_compute in H |- *. exact H.
Defined.

(** A refusal of the credentials is raised as the authentication error. *)
Example download_unauthorized :
  result (ProjectArtifactManager.download example_artifacts "private" "build"
            false None 1024 false ∅)
  = Raises (GitlabAuthenticationError 401 "401 Unauthorized").
Proof. vm_compute. reflexivity. Qed.

(** ** What the client is asked *)

Lemma spliced_keyword_written explicit kwargs k v :
  NoDup explicit.*1 -> (k, v) ∈ explicit ->
  (list_to_map explicit ∪ kwargs : gmap string pyval) !! k = Some v.
Proof.
  intros Hnd Hin. apply lookup_union_Some_l.
  apply elem_of_list_to_map_1; assumption.
Qed.

Lemma spliced_keyword_extra explicit kwargs k :
  k ∉ explicit.*1 ->
  (list_to_map explicit ∪ kwargs : gmap string pyval) !! k = kwargs !! k.
Proof.
  intros Hk. apply lookup_union_r. apply not_elem_of_list_to_map_1. exact Hk.
Qed.

Ltac list_member :=
  repeat first [ apply list_elem_of_here | apply list_elem_of_further ].

Ltac no_list_member H :=
  repeat (apply elem_of_cons in H as [H | H]; [discriminate|]);
  apply elem_of_nil in H; contradiction.

Lemma written_keywords_NoDup op streamed : NoDup (written_keywords op streamed).*1.
Proof.
  destruct op; simpl; repeat constructor;
    try (intros H; no_list_member H); apply not_elem_of_nil.
Qed.

Lemma written_raw op streamed : ("raw", PyBool true) ∈ written_keywords op streamed.
Proof. destruct op; simpl; list_member. Qed.

Lemma written_streamed op streamed :
  ("streamed", PyBool streamed) ∈ written_keywords op streamed.
Proof. destruct op; simpl; list_member. Qed.

(** C10, as it holds.  Every fetch operation of either manager whose
    extra options repeat none of the keywords its call writes calls the HTTP
    client, exactly once, for a GET carrying [raw=True] and, as [streamed],
    the flag the caller gave.  So the transfer mode asked of the client is
    always the caller's. *)
Theorem fetch_asks_raw_and_callers_streamed
    op self streamed action chunk_size iterator kwargs :
  repeats_none op streamed kwargs = true ->
  exists c,
    http_calls (events (perform op self streamed action chunk_size iterator kwargs))
    = [c]
    /\ verb c = GET
    /\ keywords c !! "raw" = Some (PyBool true)
    /\ keywords c !! "streamed" = Some (PyBool streamed).
Proof.
  intros Hfree. pose proof (proj1 (repeats_none_spec _ _ _) Hfree) as Hno.
  exists (request op self streamed kwargs). split.
  - destruct (perform_cases op self streamed action chunk_size iterator kwargs)
      as [(k & Hin & [v Hk] & _) | [_ [[_ E] | [[_ E] | [_ E]]]]].
    + rewrite (Hno k Hin) in Hk. discriminate.
    + rewrite E. simpl. rewrite delivered_http. reflexivity.
    + rewrite E. reflexivity.
    + rewrite E. reflexivity.
  - unfold request. cbn [verb keywords]. repeat split.
    + apply spliced_keyword_written;
        [apply written_keywords_NoDup | apply written_raw].
    + apply spliced_keyword_written;
        [apply written_keywords_NoDup | apply written_streamed].
Qed.

Lemma fetch_asks_raw_and_callers_streamed_witness :
  let kwargs : gmap string pyval := {[ "sudo" := PyStr "root" ]} in
  let run := ProjectJobArtifactManager.raw example_job_artifacts "report.xml"
               true None 1024 false kwargs in
  repeats_none (JobArtifactRaw "report.xml") true kwargs = true
  /\ exists c,
       http_calls (events run) = [c]
       /\ verb c = GET
       /\ keywords c !! "raw" = Some (PyBool true)
       /\ keywords c !! "streamed" = Some (PyBool true).
Proof.
  intros kwargs run.
  assert (H1 : repeats_none (JobArtifactRaw "report.xml") true kwargs = true)
    by (vm_compute; reflexivity).
  split; [exact H1|].
  exact (fetch_asks_raw_and_callers_streamed (JobArtifactRaw "report.xml")
           example_job_artifacts true None 1024 false kwargs H1).
Defined.

(** Counterexample to C10 as stated: a fetch whose extra options repeat
    [raw], even with the value the call writes itself, never calls the
    client. *)
Lemma raw_repeating_raw_asks_nothing :
  let run := ProjectArtifactManager.raw example_artifacts "main" "report.xml"
               "build" true None 1024 false {[ "raw" := PyBool true ]} in
  run = ([], Raises (TypeError "raw"))
  /\ ~ (exists c, c ∈ http_calls (events run)).
Proof.
  split.
  - vm_compute. reflexivity.
  - intros [c Hc]. vm_compute in Hc. apply elem_of_nil in Hc. exact Hc.
Qed.

(** An operation whose extra options repeat no written keyword makes the
    one call its arguments describe. *)
Lemma perform_one_call op self streamed action chunk_size iterator kwargs :
  (forall k, k ∈ (written_keywords op streamed).*1 -> kwargs !! k = None) ->
  http_calls (events (perform op self streamed action chunk_size iterator kwargs))
  = [HttpCall GET (target op self)
       (list_to_map (written_keywords op streamed) ∪ kwargs)].
Proof.
  intros Hfree.
  destruct (perform_cases op self streamed action chunk_size iterator kwargs)
    as [(k & Hin & [v Hk] & _) | [_ [[_ E] | [[_ E] | [_ E]]]]].
  - rewrite (Hfree k Hin) in Hk. discriminate.
  - rewrite E. simpl. rewrite delivered_http. reflexivity.
  - rewrite E. reflexivity.
  - rewrite E. reflexivity.
Qed.

Lemma extra_options_forwarded explicit (kwargs : gmap string pyval) k v :
  (forall k', k' ∈ explicit.*1 -> kwargs !! k' = None) ->
  kwargs !! k = Some v ->
  (list_to_map explicit ∪ kwargs : gmap string pyval) !! k = Some v.
Proof.
  intros Hfree Hk. rewrite spliced_keyword_extra; [exact Hk|].
  intros Hin. rewrite (Hfree k Hin) in Hk. discriminate.
Qed.

(** C1, as it holds.  For every ref, job name and extra options that repeat
    none of the keywords the call writes itself ([job], [streamed], [raw]),
    [ProjectArtifactManager.download] makes exactly one call of the client,
    a GET on the manager's path followed by [/{ref_name}/download], and
    [ProjectArtifactManager.raw] exactly one GET on that path followed by
    [/{ref_name}/raw/{artifact_path}]; both carry [job=job], every extra
    option as the caller gave it, and beyond the three written keywords
    nothing else. *)
Theorem artifact_fetch_requests
    self ref_name artifact_path job streamed action chunk_size iterator
    (kwargs : gmap string pyval) :
  kwargs !! "job" = None ->
  kwargs !! "streamed" = None ->
  kwargs !! "raw" = None ->
  (exists c,
     http_calls (events (ProjectArtifactManager.download self ref_name job
                           streamed action chunk_size iterator kwargs)) = [c]
     /\ verb c = GET
     /\ call_path c = path self +:+ "/" +:+ ref_name +:+ "/download"
     /\ keywords c !! "job" = Some (PyStr job)
     /\ (forall k v, kwargs !! k = Some v -> keywords c !! k = Some v)
     /\ (forall k, k ∉ ["job"; "streamed"; "raw"] ->
                   keywords c !! k = kwargs !! k))
  /\ (exists c,
        http_calls (events (ProjectArtifactManager.raw self ref_name
                              artifact_path job streamed action chunk_size
                              iterator kwargs)) = [c]
        /\ verb c = GET
        /\ call_path c
           = path self +:+ "/" +:+ ref_name +:+ "/raw/" +:+ artifact_path
        /\ keywords c !! "job" = Some (PyStr job)
        /\ (forall k v, kwargs !! k = Some v -> keywords c !! k = Some v)
        /\ (forall k, k ∉ ["job"; "streamed"; "raw"] ->
                      keywords c !! k = kwargs !! k)).
Proof.
  intros Hjob Hstreamed Hraw.
  assert (Hfree : forall op, (op = ArtifactDownload ref_name job
                              \/ op = ArtifactRaw ref_name artifact_path job) ->
            forall k, k ∈ (written_keywords op streamed).*1 -> kwargs !! k = None).
  { intros op [-> | ->] k Hin; simpl in Hin;
      repeat (apply elem_of_cons in Hin as [-> | Hin]; [assumption|]);
      apply elem_of_nil in Hin; contradiction. }
  split.
  - pose proof (Hfree _ (or_introl eq_refl)) as Hf.
    eexists. split; [exact (perform_one_call (ArtifactDownload ref_name job)
                              self streamed action chunk_size iterator kwargs Hf)|].
    cbn [verb call_path keywords]. repeat split.
    + apply spliced_keyword_written.
      * apply (written_keywords_NoDup (ArtifactDownload ref_name job)).
      * apply list_elem_of_here.
    + intros k v. apply extra_options_forwarded. exact Hf.
    + intros k Hk. apply spliced_keyword_extra. exact Hk.
  - pose proof (Hfree _ (or_intror eq_refl)) as Hf.
    eexists. split; [exact (perform_one_call (ArtifactRaw ref_name artifact_path job)
                              self streamed action chunk_size iterator kwargs Hf)|].
    cbn [verb call_path keywords]. repeat split.
    + apply spliced_keyword_written.
      * apply (written_keywords_NoDup (ArtifactRaw ref_name artifact_path job)).
      * do 2 apply list_elem_of_further. apply list_elem_of_here.
    + intros k v. apply extra_options_forwarded. exact Hf.
    + intros k Hk. apply spliced_keyword_extra.
      intros Hin. apply Hk. simpl in Hin.
      repeat (apply elem_of_cons in Hin as [-> | Hin];
              [repeat ((apply list_elem_of_here) || (apply list_elem_of_further))|]).
      apply elem_of_nil in Hin. contradiction.
Qed.

Lemma artifact_fetch_requests_witness :
  let kwargs : gmap string pyval := {[ "job_token" := PyStr "s3cr3t" ]} in
  kwargs !! "job" = None
  /\ kwargs !! "streamed" = None
  /\ kwargs !! "raw" = None
  /\ exists c,
       http_calls (events (ProjectArtifactManager.raw example_artifacts "main"
                             "report.xml" "build" false None 1024 false kwargs))
       = [c]
       /\ verb c = GET
       /\ call_path c = "/projects/42/jobs/artifacts/main/raw/report.xml"
       /\ keywords c !! "job" = Some (PyStr "build")
       /\ keywords c !! "job_token" = Some (PyStr "s3cr3t").
Proof.
  intros kwargs.
  assert (H1 : kwargs !! "job" = None) by (vm_compute; reflexivity).
  assert (H2 : kwargs !! "streamed" = None) by (vm_compute; reflexivity).
  assert (H3 : kwargs !! "raw" = None) by (vm_compute; reflexivity).
  split; [exact H1|]. split; [exact H2|]. split; [exact H3|].
  destruct (proj2 (artifact_fetch_requests example_artifacts "main" "report.xml"
                     "build" false None 1024 false kwargs H1 H2 H3))
    as (c & Hc & Hv & Hp & Hj & Hfw & _).
  exists c. split; [exact Hc|]. split; [exact Hv|]. split; [exact Hp|].
  split; [exact Hj|]. apply Hfw. vm_compute. reflexivity.
Defined.

(** Counterexample to C1 as stated: extra options that repeat [raw] stop the
    call with a [TypeError] before any request is made. *)
Lemma download_repeating_raw_sends_nothing :
  let run := ProjectArtifactManager.download example_artifacts "main" "build"
               false None 1024 false {[ "raw" := PyBool false ]} in
  run = ([], Raises (TypeError "raw"))
  /\ ~ (exists c, http_calls (events run) = [c]).
Proof.
  split.
  - vm_compute. reflexivity.
  - intros [c Hc]. vm_compute in Hc. discriminate.
Qed.

(** ** Paths computed from the parent *)



Lemma format_job_artifact_root data project_id job_id :
  data "project_id" = Some project_id ->
  data "job_id" = Some job_id ->
  format "/projects/{project_id}/jobs/{job_id}/artifacts" data
  = Some ("/projects/" +:+ project_id +:+ "/jobs/" +:+ job_id +:+ "/artifacts").
Proof.
  intros H1 H2. cbv. rewrite H1. cbv. rewrite H2. reflexivity.
Qed.


Lemma job_data parent :
  parent_data ProjectJobArtifactManager._from_parent_attrs parent "project_id"
  = parent !! "project_id"
  /\ parent_data ProjectJobArtifactManager._from_parent_attrs parent "job_id"
     = parent !! "id".
Proof. split; reflexivity. Qed.

Lemma new_job_artifact_manager gl parent project_id job_id :
  parent !! "project_id" = Some project_id ->
  parent !! "id" = Some job_id ->
  ProjectJobArtifactManager.new gl parent
  = Some {| gitlab := gl; _parent := parent;
            _path := ProjectJobArtifactManager._path;
            _from_parent_attrs := ProjectJobArtifactManager._from_parent_attrs;
            _computed_path := "/projects/" +:+ project_id +:+ "/jobs/"
                              +:+ job_id +:+ "/artifacts" |}.
Proof.
  intros Hp Hj. unfold ProjectJobArtifactManager.new, __init__.
  destruct (job_data parent) as [Dp Dj].
  unfold ProjectJobArtifactManager._path.
  rewrite (format_job_artifact_root _ project_id job_id) by congruence.
  reflexivity.
Qed.


(** C7, as it holds.  A job-artifact manager built on a parent job has the
    path [/projects/{project_id}/jobs/{job_id}/artifacts], the two
    identifiers being the parent's [project_id] and [id]; neither method
    takes an identifier.  For extra options that repeat neither [streamed]
    nor [raw], [download] makes one GET on exactly that path and [raw] one
    GET on that path followed by [/{path}].  The methods write no [job]
    keyword: beyond [streamed] and [raw] the call carries the extra options
    and nothing else, so a [job] parameter goes out only if the caller put
    one among them. *)
Theorem job_artifact_fetch_requests
    gl parent project_id job_id path_ streamed action chunk_size iterator
    (kwargs : gmap string pyval) :
  parent !! "project_id" = Some project_id ->
  parent !! "id" = Some job_id ->
  kwargs !! "streamed" = None ->
  kwargs !! "raw" = None ->
  exists self,
    ProjectJobArtifactManager.new gl parent = Some self
    /\ path self = "/projects/" +:+ project_id +:+ "/jobs/" +:+ job_id
                   +:+ "/artifacts"
    /\ (exists c,
          http_calls (events (ProjectJobArtifactManager.download self streamed
                                action chunk_size iterator kwargs)) = [c]
          /\ verb c = GET
          /\ call_path c = path self
          /\ keywords c !! "job" = kwargs !! "job"
          /\ (forall k, k ∉ ["streamed"; "raw"] ->
                        keywords c !! k = kwargs !! k))
    /\ (exists c,
          http_calls (events (ProjectJobArtifactManager.raw self path_ streamed
                                action chunk_size iterator kwargs)) = [c]
          /\ verb c = GET
          /\ call_path c = path self +:+ "/" +:+ path_
          /\ keywords c !! "job" = kwargs !! "job"
          /\ (forall k, k ∉ ["streamed"; "raw"] ->
                        keywords c !! k = kwargs !! k)).
Proof.
  intros Hp Hj Hstreamed Hraw.
  eexists. split; [exact (new_job_artifact_manager gl parent _ _ Hp Hj)|].
  split; [reflexivity|].
  assert (Hfree : forall op, (op = JobArtifactDownload \/ op = JobArtifactRaw path_) ->
            forall k, k ∈ (written_keywords op streamed).*1 -> kwargs !! k = None).
  { intros op [-> | ->] k Hin; simpl in Hin;
      repeat (apply elem_of_cons in Hin as [-> | Hin]; [assumption|]);
      apply elem_of_nil in Hin; contradiction. }
  assert (Hjob : "job" ∉ ["streamed"; "raw"]).
  { intros Hin. repeat (apply elem_of_cons in Hin as [Hin | Hin]; [discriminate|]).
    apply elem_of_nil in Hin. contradiction. }
  split.
  - eexists. split; [exact (perform_one_call JobArtifactDownload _ streamed action
                              chunk_size iterator kwargs
                              (Hfree _ (or_introl eq_refl)))|].
    cbn [verb call_path keywords]. repeat split.
    + apply (spliced_keyword_extra (written_keywords JobArtifactDownload streamed)).
      exact Hjob.
    + intros k Hk.
      apply (spliced_keyword_extra (written_keywords JobArtifactDownload streamed)).
      exact Hk.
  - eexists. split; [exact (perform_one_call (JobArtifactRaw path_) _ streamed
                              action chunk_size iterator kwargs
                              (Hfree _ (or_intror eq_refl)))|].
    cbn [verb call_path keywords]. repeat split.
    + apply (spliced_keyword_extra (written_keywords (JobArtifactRaw path_) streamed)).
      exact Hjob.
    + intros k Hk.
      apply (spliced_keyword_extra (written_keywords (JobArtifactRaw path_) streamed)).
      exact Hk.
Qed.

Lemma job_artifact_fetch_requests_witness :
  let kwargs : gmap string pyval := ∅ in
  example_job !! "project_id" = Some "42"
  /\ example_job !! "id" = Some "7"
  /\ kwargs !! "streamed" = None
  /\ kwargs !! "raw" = None
  /\ exists self,
       ProjectJobArtifactManager.new example_gitlab example_job = Some self
       /\ path self = "/projects/42/jobs/7/artifacts"
       /\ (exists c,
             http_calls (events (ProjectJobArtifactManager.raw self "report.xml"
                                   false None 1024 false kwargs)) = [c]
             /\ verb c = GET
             /\ call_path c = "/projects/42/jobs/7/artifacts/report.xml"
             /\ keywords c !! "job" = None).
Proof.
  intros kwargs.
  assert (H1 : example_job !! "project_id" = Some "42") by (vm_compute; reflexivity).
  assert (H2 : example_job !! "id" = Some "7") by (vm_compute; reflexivity).
  assert (H3 : kwargs !! "streamed" = None) by (vm_compute; reflexivity).
  assert (H4 : kwargs !! "raw" = None) by (vm_compute; reflexivity).
  split; [exact H1|]. split; [exact H2|]. split; [exact H3|]. split; [exact H4|].
  destruct (job_artifact_fetch_requests example_gitlab example_job "42" "7"
              "report.xml" false None 1024 false kwargs H1 H2 H3 H4)
    as (self & Hnew & Hpath & _ & (c & Hc & Hv & Hp & Hjob & _)).
  exists self. split; [exact Hnew|]. split; [exact Hpath|].
  exists c. split; [exact Hc|]. split; [exact Hv|].
  split; [rewrite Hp, Hpath; reflexivity|].
  rewrite Hjob. vm_compute. reflexivity.
Defined.

(** Counterexample to C7 as stated, on two counts: a [job] given among the
    extra options of [raw] goes out as a parameter of the GET, and extra
    options that repeat [raw] stop [download] before any GET. *)
Lemma job_raw_forwards_job_option :
  (let run := ProjectJobArtifactManager.raw example_job_artifacts "report.xml"
                false None 1024 false {[ "job" := PyStr "build" ]} in
   exists c, http_calls (events run) = [c]
             /\ call_path c = "/projects/42/jobs/7/artifacts/report.xml"
             /\ keywords c !! "job" = Some (PyStr "build"))
  /\ (let run := ProjectJobArtifactManager.download example_job_artifacts
                   false None 1024 false {[ "raw" := PyBool false ]} in
      run = ([], Raises (TypeError "raw"))
      /\ ~ (exists c, http_calls (events run) = [c])).
Proof.
  split.
  - eexists. split; [vm_compute; reflexivity|].
    split; vm_compute; reflexivity.
  - split.
    + vm_compute. reflexivity.
    + intros [c Hc]. vm_compute in Hc. discriminate.
Qed.

(** ** Deleting the artifacts of a project *)



(** On a platform that forbids the deletion. *)
Example delete_forbidden :
  ProjectArtifactManager.delete
    {| gitlab := {| remote := fun _ => {| status_code := 403; content := [];
                                          reason := "403 Forbidden" |} |};
       _parent := example_project;
       _path := ProjectArtifactManager._path;
       _from_parent_attrs := ProjectArtifactManager._from_parent_attrs;
       _computed_path := "/projects/42/jobs/artifacts" |} ∅
  = ([Http (HttpCall DELETE "/projects/42/artifacts" ∅)],
     Raises (GitlabAuthenticationError 403 "403 Forbidden")).
Proof. vm_compute. reflexivity. Qed.

(** ** Calling a method: binding, defaults, and the deprecated alias *)

Lemma fill_defaults_silent params given : events (fill_defaults params given) = [].
Proof.
  induction params as [|[name dflt] rest IH]; simpl; [reflexivity|].
  destruct (fill_defaults rest given) as [t [bound|e]]; simpl in IH; subst t;
    destruct (given !! name), dflt; reflexivity.
Qed.

(** What [**kwargs] receives never names a parameter of the method. *)
Lemma bind_arguments_extra sig args kwargs t b extra k :
  bind_arguments sig args kwargs = (t, Returns (b, extra)) ->
  k ∈ (positional sig).*1 ++ (keyword_only sig).*1 ->
  extra !! k = None.
Proof.
  unfold bind_arguments. intros Hb Hk.
  destruct (_ <? _)%nat; [discriminate|].
  destruct (names_receiver kwargs); [discriminate|].
  destruct (List.find _ _); [discriminate|].
  match type of Hb with context [fill_defaults ?p ?g] =>
    destruct (fill_defaults p g) as [t' [bound|e]] end; [|discriminate].
  simpl in Hb. injection Hb as _ _ <-.
  apply map_lookup_filter_None. right. intros v _ Hn. apply Hn. exact Hk.
Qed.

Lemma bind_arguments_silent sig args kwargs :
  events (bind_arguments sig args kwargs) = [].
Proof.
  unfold bind_arguments.
  destruct (_ <? _)%nat; [reflexivity|].
  destruct (names_receiver kwargs); [reflexivity|].
  destruct (List.find _ _); [reflexivity|].
  match goal with |- context [fill_defaults ?p ?g] =>
    pose proof (fill_defaults_silent p g) as H;
    destruct (fill_defaults p g) as [t [bound|e]] end;
    simpl in H; subst t; reflexivity.
Qed.

(** A step that emits nothing either stops the call with its exception or
    hands its value on. *)
Lemma bind_silent {A B} (m : M A) (f : A -> M B) :
  events m = [] ->
  (exists e, (x <- m ;; f x) = ([], Raises e)) \/ (exists a, (x <- m ;; f x) = f a).
Proof.
  destruct m as [t [a|e]]; simpl; intros ->.
  - right. exists a. destruct (f a); reflexivity.
  - left. exists e. reflexivity.
Qed.

Lemma bind_silent_events {A B} (m : M A) (f : A -> M B) :
  events m = [] -> (forall a, events (f a) = []) -> events (x <- m ;; f x) = [].
Proof.
  intros Hm Hf. destruct (bind_silent m f Hm) as [[e ->] | [a ->]]; auto.
Qed.

Lemma arg_str_silent b name : events (arg_str b name) = [].
Proof. unfold arg_str. destruct (b !! name) as [[]|]; reflexivity. Qed.

Lemma arg_bool_silent b name : events (arg_bool b name) = [].
Proof. unfold arg_bool. destruct (b !! name) as [[]|]; reflexivity. Qed.

Lemma arg_int_silent b name : events (arg_int b name) = [].
Proof. unfold arg_int. destruct (b !! name) as [[]|]; reflexivity. Qed.

Lemma arg_callable_silent b name : events (arg_callable b name) = [].
Proof. unfold arg_callable. destruct (b !! name) as [[]|]; reflexivity. Qed.

Create HintDb silent.
#[local] Hint Resolve bind_arguments_silent arg_str_silent arg_bool_silent
  arg_int_silent arg_callable_silent : silent.

Ltac silent :=
  repeat (apply bind_silent_events; [auto with silent | intros]);
  auto with silent; try reflexivity.

Lemma read_options_silent b : events (read_options b) = [].
Proof. unfold read_options. silent. Qed.

#[local] Hint Resolve read_options_silent : silent.

Lemma artifact_download_arguments_silent args kwargs :
  events (ProjectArtifactManager.download_arguments args kwargs) = [].
Proof. unfold ProjectArtifactManager.download_arguments. silent. Qed.

Lemma job_artifact_download_arguments_silent args kwargs :
  events (ProjectJobArtifactManager.download_arguments args kwargs) = [].
Proof. unfold ProjectJobArtifactManager.download_arguments. silent. Qed.

Lemma perform_no_notice op self streamed action chunk_size iterator kwargs :
  notices (events (perform op self streamed action chunk_size iterator kwargs)) = [].
Proof.
  destruct (perform_cases op self streamed action chunk_size iterator kwargs)
    as [(k & _ & _ & E) | [_ [[_ E] | [[_ E] | [_ E]]]]]; rewrite E;
    try reflexivity.
  unfold delivered. simpl.
  destruct iterator, streamed, action; simpl; try reflexivity.
  induction (iter_content _ _); simpl; auto.
Qed.

Lemma artifact_call_download_no_notice self args kwargs :
  notices (events (ProjectArtifactManager.call_download self args kwargs)) = [].
Proof.
  unfold ProjectArtifactManager.call_download.
  destruct (bind_silent _
              (fun a : string * string * fetch_options =>
                 let '(ref_name, job, o) := a in
                 ProjectArtifactManager.download self ref_name job
                   (opt_streamed o) (opt_action o) (opt_chunk_size o)
                   (opt_iterator o) (opt_kwargs o))
              (artifact_download_arguments_silent args kwargs))
    as [[e ->] | [[[ref_name job] o] ->]]; [reflexivity|].
  exact (perform_no_notice (ArtifactDownload ref_name job) self _ _ _ _ _).
Qed.

Lemma job_artifact_call_download_no_notice self args kwargs :
  notices (events (ProjectJobArtifactManager.call_download self args kwargs)) = [].
Proof.
  unfold ProjectJobArtifactManager.call_download.
  destruct (bind_silent _
              (fun o : fetch_options =>
                 ProjectJobArtifactManager.download self
                   (opt_streamed o) (opt_action o) (opt_chunk_size o)
                   (opt_iterator o) (opt_kwargs o))
              (job_artifact_download_arguments_silent args kwargs))
    as [[e ->] | [o ->]]; [reflexivity|].
  exact (perform_no_notice JobArtifactDownload self _ _ _ _ _).
Qed.

(** C8, as it holds.  For every list of positional arguments and every
    keywords that do not name [self], calling a manager of either class
    ([__call__]) gives exactly what calling its [download] with the same
    arguments gives: the same returned value or the same exception, and the
    same events, before which it emits one deprecation notice, the only
    notice of the whole call. *)
Theorem call_is_download_after_notice self args (kwargs : gmap string pyval) :
  kwargs !! "self" = None ->
  (exists message,
     events (ProjectArtifactManager.__call__ self args kwargs)
     = Warning DeprecationWarning message
       :: events (ProjectArtifactManager.call_download self args kwargs)
     /\ notices (events (ProjectArtifactManager.__call__ self args kwargs))
        = [(DeprecationWarning, message)])
  /\ result (ProjectArtifactManager.__call__ self args kwargs)
     = result (ProjectArtifactManager.call_download self args kwargs)
  /\ (exists message,
        events (ProjectJobArtifactManager.__call__ self args kwargs)
        = Warning DeprecationWarning message
          :: events (ProjectJobArtifactManager.call_download self args kwargs)
        /\ notices (events (ProjectJobArtifactManager.__call__ self args kwargs))
           = [(DeprecationWarning, message)])
  /\ result (ProjectJobArtifactManager.__call__ self args kwargs)
     = result (ProjectJobArtifactManager.call_download self args kwargs).
Proof.
  intros Hself.
  pose proof (artifact_call_download_no_notice self args kwargs) as Hn1.
  pose proof (job_artifact_call_download_no_notice self args kwargs) as Hn2.
  unfold ProjectArtifactManager.__call__, ProjectJobArtifactManager.__call__,
    names_receiver, utils.warn, warnings.warn, emit.
  rewrite Hself.
  rewrite (bool_decide_eq_false_2 (is_Some None)) by (intros [? ?]; discriminate).
  rewrite !bind_returns.
  destruct (ProjectArtifactManager.call_download self args kwargs) as [t1 [v1|e1]];
    destruct (ProjectJobArtifactManager.call_download self args kwargs) as [t2 [v2|e2]];
    unfold events, result in *; simpl in *; rewrite ?app_nil_r;
    repeat split; eexists; (split; [reflexivity|]); simpl; congruence.
Qed.

Lemma call_is_download_after_notice_witness :
  let args := [PyStr "main"; PyStr "build"] in
  let kwargs : gmap string pyval := {[ "job_token" := PyStr "s3cr3t" ]} in
  kwargs !! "self" = None
  /\ (exists message,
        events (ProjectArtifactManager.__call__ example_artifacts args kwargs)
        = Warning DeprecationWarning message
          :: events (ProjectArtifactManager.call_download example_artifacts
                       args kwargs))
  /\ result (ProjectArtifactManager.__call__ example_artifacts args kwargs)
     = result (ProjectArtifactManager.call_download example_artifacts args kwargs).
Proof.
  intros args kwargs.
  assert (H : kwargs !! "self" = None) by (vm_compute; reflexivity).
  split; [exact H|].
  destruct (call_is_download_after_notice example_artifacts args kwargs H)
    as ((message & He & _) & Hr & _).
  split; [exists message; exact He | exact Hr].
Defined.

(** Counterexample to C8 as stated: with a keyword [self] the call of the
    manager is a [TypeError] raised before the body, so no notice is
    emitted; [download] with the same arguments raises it too. *)
Lemma call_naming_self_gives_no_notice :
  let args := [PyStr "main"; PyStr "build"] in
  let kwargs : gmap string pyval := {[ "self" := PyInt 1 ]} in
  ProjectArtifactManager.__call__ example_artifacts args kwargs
  = ([], Raises (TypeError "self"))
  /\ notices (events (ProjectArtifactManager.__call__ example_artifacts args kwargs))
     = []
  /\ ProjectArtifactManager.call_download example_artifacts args kwargs
     = ([], Raises (TypeError "self"))
  /\ ProjectJobArtifactManager.__call__ example_job_artifacts [] kwargs
     = ([], Raises (TypeError "self")).
Proof. repeat split; vm_compute; reflexivity. Qed.

Lemma bind_value {A B} (a : A) (f : A -> M B) :
  (x <- ([], Returns a) ;; f x) = f a.
Proof. exact (bind_ret_l a f). Qed.

(** Evaluation of the binding of a call whose arguments are known. *)
Ltac bind_known :=
  match goal with
  | |- bind ?m ?f = _ =>
      let v := eval vm_compute in m in
      change (bind m f) with (bind v f);
      rewrite (bind_value _ f); reflexivity
  end.

(** C9.  The four fetch operations have the same defaults.  A call that
    gives only the required arguments binds [streamed=False], no handler,
    [chunk_size=1024] and [iterator=False], and so runs in buffered mode; a
    call that only adds [streamed=True] binds the same but [streamed], and so
    streams in chunks of 1024 bytes. *)
Theorem fetch_defaults self ref_name artifact_path job path_ :
  let bound streamed :=
    {| opt_streamed := streamed; opt_action := None; opt_chunk_size := 1024;
       opt_iterator := false; opt_kwargs := ∅ |} in
  let only_streamed : gmap string pyval := {[ "streamed" := PyBool true ]} in
  (ProjectArtifactManager.download_arguments [PyStr ref_name; PyStr job] ∅
   = ret (ref_name, job, bound false)
   /\ ProjectArtifactManager.raw_arguments
        [PyStr ref_name; PyStr artifact_path; PyStr job] ∅
      = ret (ref_name, artifact_path, job, bound false)
   /\ ProjectJobArtifactManager.download_arguments [] ∅ = ret (bound false)
   /\ ProjectJobArtifactManager.raw_arguments [PyStr path_] ∅
      = ret (path_, bound false))
  /\ (ProjectArtifactManager.download_arguments [PyStr ref_name; PyStr job]
        only_streamed
      = ret (ref_name, job, bound true)
      /\ ProjectArtifactManager.raw_arguments
           [PyStr ref_name; PyStr artifact_path; PyStr job] only_streamed
         = ret (ref_name, artifact_path, job, bound true)
      /\ ProjectJobArtifactManager.download_arguments [] only_streamed
         = ret (bound true)
      /\ ProjectJobArtifactManager.raw_arguments [PyStr path_] only_streamed
         = ret (path_, bound true))
  /\ (ProjectArtifactManager.call_download self [PyStr ref_name; PyStr job] ∅
      = ProjectArtifactManager.download self ref_name job false None 1024 false ∅
      /\ ProjectArtifactManager.call_raw self
           [PyStr ref_name; PyStr artifact_path; PyStr job] ∅
         = ProjectArtifactManager.raw self ref_name artifact_path job
             false None 1024 false ∅
      /\ ProjectJobArtifactManager.call_download self [] ∅
         = ProjectJobArtifactManager.download self false None 1024 false ∅
      /\ ProjectJobArtifactManager.call_raw self [PyStr path_] ∅
         = ProjectJobArtifactManager.raw self path_ false None 1024 false ∅)
  /\ (ProjectArtifactManager.call_download self [PyStr ref_name; PyStr job]
        only_streamed
      = ProjectArtifactManager.download self ref_name job true None 1024 false ∅
      /\ ProjectArtifactManager.call_raw self
           [PyStr ref_name; PyStr artifact_path; PyStr job] only_streamed
         = ProjectArtifactManager.raw self ref_name artifact_path job
             true None 1024 false ∅
      /\ ProjectJobArtifactManager.call_download self [] only_streamed
         = ProjectJobArtifactManager.download self true None 1024 false ∅
      /\ ProjectJobArtifactManager.call_raw self [PyStr path_] only_streamed
         = ProjectJobArtifactManager.raw self path_ true None 1024 false ∅).
Proof.
  intros bound only_streamed. subst bound only_streamed.
  split; [|split; [|split]].
  - repeat split; vm_compute; reflexivity.
  - repeat split; vm_compute; reflexivity.
  - unfold ProjectArtifactManager.call_download, ProjectArtifactManager.call_raw,
      ProjectJobArtifactManager.call_download, ProjectJobArtifactManager.call_raw.
    split; [|split; [|split]]; bind_known.
  - unfold ProjectArtifactManager.call_download, ProjectArtifactManager.call_raw,
      ProjectJobArtifactManager.call_download, ProjectJobArtifactManager.call_raw.
    split; [|split; [|split]]; bind_known.
Qed.

(** With the chunk size left out, a handler gets chunks of 1024 bytes: here
    the whole body of six bytes at once. *)
Example default_chunk_holds_six_bytes :
  ProjectArtifactManager.call_download example_artifacts
    [PyStr "main"; PyStr "build"; PyBool true; PyCallable "h"] ∅
  = ([Http (request (ArtifactDownload "main" "build") example_artifacts true ∅);
      Action "h" abc123],
     Returns PNone).
Proof. vm_compute. reflexivity. Qed.

(** * Further properties of the bindings *)

(** ** What reaches the client *)

Lemma http_calls_perform op self streamed action chunk_size iterator kwargs :
  http_calls (events (perform op self streamed action chunk_size iterator kwargs))
  = match result (pass_keywords (written_keywords op streamed) kwargs) with
    | Returns kw => [HttpCall GET (target op self) kw]
    | Raises _ => []
    end.
Proof.
  destruct (pass_keywords_cases (written_keywords op streamed) kwargs)
    as [(k & Hin & Hk & E) | [Hfree E]]; rewrite E; simpl.
  - destruct (perform_cases op self streamed action chunk_size iterator kwargs)
      as [(k' & _ & _ & E') | [Hfree _]].
    + rewrite E'. reflexivity.
    + destruct Hk as [v Hk]. rewrite (Hfree k Hin) in Hk. discriminate.
  - apply perform_one_call. exact Hfree.
Qed.

(** X1.  The handler, the chunk size and the [iterator] flag stay on the
    caller's side: none of the four fetch methods passes them to the
    client, so the request is the same whatever they are.  In particular
    [iterator=True] alone does not ask the client for a streamed transfer. *)
Theorem request_ignores_consumption_mode
    op self streamed action chunk_size iterator action' chunk_size' iterator'
    kwargs :
  http_calls (events (perform op self streamed action chunk_size iterator kwargs))
  = http_calls (events (perform op self streamed action' chunk_size' iterator' kwargs)).
Proof. rewrite !http_calls_perform. reflexivity. Qed.

(** ** Paths are plain text *)

Lemma string_app_assoc (a b c : string) : (a +:+ b) +:+ c = a +:+ (b +:+ c).
Proof.
  induction a as [|x a IH]; [reflexivity|].
  change (String x ((a +:+ b) +:+ c) = String x (a +:+ (b +:+ c))).
  rewrite IH. reflexivity.
Qed.

Lemma written_keywords_same_map ref_name ref_name' artifact_path job streamed :
  (list_to_map (written_keywords (ArtifactDownload ref_name job) streamed)
     : gmap string pyval)
  = list_to_map (written_keywords (ArtifactRaw ref_name' artifact_path job) streamed).
Proof.
  apply list_to_map_proper.
  - apply (written_keywords_NoDup (ArtifactDownload ref_name job)).
  - simpl. apply Permutation_cons_append.
Qed.

(** X2.  The f-strings of [download] and [raw] put [ref_name] and
    [artifact_path] into the path as they are, escaping nothing.  So the
    path does not tell where the ref ends: [raw] with the ref [a/raw/b] and
    the file [c] is the very same call, with the same outcome, as [raw] with
    the ref [a] and the file [b/raw/c]; and when the extra options repeat no
    written keyword, [download] with the ref [a/raw] is the same call as
    [raw] with the ref [a] and the file [download]. *)
Theorem paths_are_not_escaped
    self a b c job streamed action chunk_size iterator
    (kwargs : gmap string pyval) :
  ProjectArtifactManager.raw self (a +:+ "/raw/" +:+ b) c job
    streamed action chunk_size iterator kwargs
  = ProjectArtifactManager.raw self a (b +:+ "/raw/" +:+ c) job
      streamed action chunk_size iterator kwargs
  /\ (kwargs !! "job" = None -> kwargs !! "streamed" = None ->
      kwargs !! "raw" = None ->
      ProjectArtifactManager.download self (a +:+ "/raw") job
        streamed action chunk_size iterator kwargs
      = ProjectArtifactManager.raw self a "download" job
          streamed action chunk_size iterator kwargs).
Proof.
  split.
  - unfold ProjectArtifactManager.raw.
    replace (path self +:+ "/" +:+ (a +:+ "/raw/" +:+ b) +:+ "/raw/" +:+ c)
      with (path self +:+ "/" +:+ a +:+ "/raw/" +:+ (b +:+ "/raw/" +:+ c));
      [reflexivity|].
    f_equal. f_equal. rewrite !string_app_assoc. reflexivity.
  - intros Hjob Hstreamed Hraw.
    change (perform (ArtifactDownload (a +:+ "/raw") job) self streamed action
              chunk_size iterator kwargs
            = perform (ArtifactRaw a "download" job) self streamed action
                chunk_size iterator kwargs).
    rewrite !perform_fetch_request. unfold fetch_request.
    assert (Hfree : forall op, (op = ArtifactDownload (a +:+ "/raw") job
                                \/ op = ArtifactRaw a "download" job) ->
              forall k, k ∈ (written_keywords op streamed).*1 -> kwargs !! k = None).
    { intros op [-> | ->] k Hin; simpl in Hin;
        repeat (apply elem_of_cons in Hin as [-> | Hin]; [assumption|]);
        apply elem_of_nil in Hin; contradiction. }
    destruct (pass_keywords_cases
                (written_keywords (ArtifactDownload (a +:+ "/raw") job) streamed)
                kwargs) as [(k & Hin & [v Hk] & _) | [_ ->]];
      [rewrite (Hfree _ (or_introl eq_refl) k Hin) in Hk; discriminate|].
    destruct (pass_keywords_cases
                (written_keywords (ArtifactRaw a "download" job) streamed)
                kwargs) as [(k & Hin & [v Hk] & _) | [_ ->]];
      [rewrite (Hfree _ (or_intror eq_refl) k Hin) in Hk; discriminate|].
    rewrite (written_keywords_same_map (a +:+ "/raw") a "download" job streamed).
    replace (target (ArtifactDownload (a +:+ "/raw") job) self)
      with (target (ArtifactRaw a "download" job) self); [reflexivity|].
    simpl. f_equal. f_equal. rewrite !string_app_assoc. reflexivity.
Qed.

Lemma paths_are_not_escaped_witness :
  let kwargs : gmap string pyval := ∅ in
  kwargs !! "job" = None
  /\ kwargs !! "streamed" = None
  /\ kwargs !! "raw" = None
  /\ ProjectArtifactManager.download example_artifacts ("main" +:+ "/raw") "build"
       false None 1024 false kwargs
     = ProjectArtifactManager.raw example_artifacts "main" "download" "build"
         false None 1024 false kwargs.
Proof.
  intros kwargs.
  assert (H1 : kwargs !! "job" = None) by (vm_compute; reflexivity).
  assert (H2 : kwargs !! "streamed" = None) by (vm_compute; reflexivity).
  assert (H3 : kwargs !! "raw" = None) by (vm_compute; reflexivity).
  split; [exact H1|]. split; [exact H2|]. split; [exact H3|].
  exact (proj2 (paths_are_not_escaped example_artifacts "main" "" "" "build"
                  false None 1024 false kwargs) H1 H2 H3).
Defined.

(** ** Calls that do not bind *)

Lemma zip_keys (names : list string) (args : list pyval) :
  (zip names args).*1 = take (length args) names.
Proof.
  revert args. induction names as [|n names IH]; intros [|a args]; simpl;
    try reflexivity.
  rewrite IH. reflexivity.
Qed.

Lemma find_absent {A} (f : A -> bool) (l : list A) :
  (forall x, x ∈ l -> f x = false) -> List.find f l = None.
Proof.
  induction l as [|x l IH]; intros H; simpl; [reflexivity|].
  rewrite (H x (list_elem_of_here _ _)).
  apply IH. intros y Hy. apply H. apply list_elem_of_further. exact Hy.
Qed.

Lemma find_present {A} (f : A -> bool) (l : list A) x :
  x ∈ l -> f x = true -> exists y, List.find f l = Some y.
Proof.
  induction l as [|z l IH]; intros Hin Hx.
  - apply elem_of_nil in Hin. contradiction.
  - simpl. destruct (f z) eqn:Hz; [eauto|].
    apply elem_of_cons in Hin as [-> | Hin]; [congruence|]. auto.
Qed.

Lemma bind_arguments_too_many sig args kwargs :
  (length (positional sig) < length args)%nat ->
  bind_arguments sig args kwargs = ([], Raises (TypeError "positional")).
Proof.
  intros Hlen. unfold bind_arguments. rewrite length_fmap.
  destruct (Nat.ltb_spec (length (positional sig)) (length args)); [reflexivity|lia].
Qed.

Lemma bind_arguments_twice sig args kwargs k :
  k ∈ take (length args) (positional sig).*1 ->
  is_Some (kwargs !! k) ->
  exists k', bind_arguments sig args kwargs = ([], Raises (TypeError k')).
Proof.
  intros Hk Hkw. unfold bind_arguments.
  destruct (_ <? _)%nat; [eauto|].
  destruct (names_receiver kwargs); [eauto|].
  match goal with |- context [List.find ?f ?l] =>
    destruct (find_present f l k) as [y ->] end; [| |eauto].
  - apply elem_of_take in Hk as (i & Hi & _).
    apply list_elem_of_lookup. eauto.
  - apply andb_true_iff. split; apply bool_decide_eq_true; [|exact Hkw].
    rewrite <- zip_keys in Hk.
    destruct (list_to_map (zip (positional sig).*1 args) !! k) eqn:E; [eauto|].
    apply not_elem_of_list_to_map in E. contradiction.
Qed.

Lemma fill_defaults_missing params given name :
  (name, None) ∈ params -> given !! name = None ->
  exists k, fill_defaults params given = ([], Raises (TypeError k)).
Proof.
  induction params as [|[n d] rest IH]; intros Hin Hg.
  - apply elem_of_nil in Hin. contradiction.
  - simpl. apply elem_of_cons in Hin as [Heq | Hin].
    + injection Heq as <- <-. rewrite Hg. eauto.
    + destruct (IH Hin Hg) as [k Hk]. rewrite Hk.
      destruct (given !! n), d; simpl; eauto.
Qed.

Lemma bind_arguments_missing sig args kwargs name :
  (name, None) ∈ positional sig ++ keyword_only sig ->
  name ∉ take (length args) (positional sig).*1 ->
  kwargs !! name = None ->
  exists k, bind_arguments sig args kwargs = ([], Raises (TypeError k)).
Proof.
  intros Hin Hpos Hkw. unfold bind_arguments.
  destruct (_ <? _)%nat; [eauto|].
  destruct (names_receiver kwargs); [eauto|].
  destruct (List.find _ _); [eauto|].
  match goal with |- context [fill_defaults ?p ?g] =>
    destruct (fill_defaults_missing p g name Hin) as [k ->] end; [|eauto].
  apply lookup_union_None. split.
  - apply not_elem_of_list_to_map. rewrite zip_keys. exact Hpos.
  - apply map_lookup_filter_None. left. exact Hkw.
Qed.

(** A call whose arguments do not bind never enters the body. *)
Lemma artifact_call_download_unbound self args kwargs e :
  bind_arguments ProjectArtifactManager.download_signature args kwargs
  = ([], Raises e) ->
  ProjectArtifactManager.call_download self args kwargs = ([], Raises e).
Proof.
  intros E. unfold ProjectArtifactManager.call_download,
    ProjectArtifactManager.download_arguments. rewrite E. reflexivity.
Qed.

Lemma artifact_call_raw_unbound self args kwargs e :
  bind_arguments ProjectArtifactManager.raw_signature args kwargs
  = ([], Raises e) ->
  ProjectArtifactManager.call_raw self args kwargs = ([], Raises e).
Proof.
  intros E. unfold ProjectArtifactManager.call_raw,
    ProjectArtifactManager.raw_arguments. rewrite E. reflexivity.
Qed.

Lemma job_artifact_call_download_unbound self args kwargs e :
  bind_arguments ProjectJobArtifactManager.download_signature args kwargs
  = ([], Raises e) ->
  ProjectJobArtifactManager.call_download self args kwargs = ([], Raises e).
Proof.
  intros E. unfold ProjectJobArtifactManager.call_download,
    ProjectJobArtifactManager.download_arguments. rewrite E. reflexivity.
Qed.

Lemma job_artifact_call_raw_unbound self args kwargs e :
  bind_arguments ProjectJobArtifactManager.raw_signature args kwargs
  = ([], Raises e) ->
  ProjectJobArtifactManager.call_raw self args kwargs = ([], Raises e).
Proof.
  intros E. unfold ProjectJobArtifactManager.call_raw,
    ProjectJobArtifactManager.raw_arguments. rewrite E. reflexivity.
Qed.

(** X3.  [iterator] stands after the [*] in the signatures of
    [ProjectArtifactManager]: it cannot be given by position, and a sixth
    positional argument to [download] (a seventh to [raw]) is a [TypeError]
    raised before any request.  [ProjectJobArtifactManager] has no [*]: there
    [iterator] is the fourth positional parameter of [download] and the
    fifth of [raw]. *)
Theorem iterator_by_position self args kwargs path_ streamed chunk_size iterator :
  ((5 < length args)%nat ->
   ProjectArtifactManager.call_download self args kwargs
   = ([], Raises (TypeError "positional")))
  /\ ((6 < length args)%nat ->
      ProjectArtifactManager.call_raw self args kwargs
      = ([], Raises (TypeError "positional")))
  /\ ProjectJobArtifactManager.call_download self
       [PyBool streamed; PyNone; PyInt chunk_size; PyBool iterator] ∅
     = ProjectJobArtifactManager.download self streamed None chunk_size iterator ∅
  /\ ProjectJobArtifactManager.call_raw self
       [PyStr path_; PyBool streamed; PyNone; PyInt chunk_size; PyBool iterator] ∅
     = ProjectJobArtifactManager.raw self path_ streamed None chunk_size iterator ∅.
Proof.
  split; [|split; [|split]].
  - intros H. apply artifact_call_download_unbound.
    apply bind_arguments_too_many. exact H.
  - intros H. apply artifact_call_raw_unbound.
    apply bind_arguments_too_many. exact H.
  - unfold ProjectJobArtifactManager.call_download. bind_known.
  - unfold ProjectJobArtifactManager.call_raw. bind_known.
Qed.

Lemma iterator_by_position_witness :
  let args := [PyStr "main"; PyStr "build"; PyBool false; PyNone; PyInt 1024;
               PyBool true] in
  (5 < length args)%nat
  /\ ProjectArtifactManager.call_download example_artifacts args ∅
     = ([], Raises (TypeError "positional")).
Proof.
  intros args.
  assert (H : (5 < length args)%nat) by (simpl; lia).
  split; [exact H|].
  exact (proj1 (iterator_by_position example_artifacts args ∅ "" false 0 false) H).
Defined.

(** X4.  [ref_name] and [job] have no default in
    [ProjectArtifactManager.download]: a call that gives one of them neither
    by position nor by keyword is a [TypeError], raised before any request is
    made, whatever else is passed. *)
Theorem download_requires_ref_and_job self args kwargs :
  (args = [] -> kwargs !! "ref_name" = None ->
   exists k, ProjectArtifactManager.call_download self args kwargs
             = ([], Raises (TypeError k)))
  /\ ((length args < 2)%nat -> kwargs !! "job" = None ->
      exists k, ProjectArtifactManager.call_download self args kwargs
                = ([], Raises (TypeError k))).
Proof.
  split.
  - intros -> Hkw.
    destruct (bind_arguments_missing ProjectArtifactManager.download_signature
                [] kwargs "ref_name") as [k Hk]; [| |exact Hkw|].
    + apply list_elem_of_here.
    + apply not_elem_of_nil.
    + exists k. apply artifact_call_download_unbound. exact Hk.
  - intros Hlen Hkw.
    destruct (bind_arguments_missing ProjectArtifactManager.download_signature
                args kwargs "job") as [k Hk]; [| |exact Hkw|].
    + apply list_elem_of_further, list_elem_of_here.
    + intros Hin. apply elem_of_take in Hin as (i & Hi & Hlt).
      destruct i as [|[|i]]; [discriminate|lia|lia].
    + exists k. apply artifact_call_download_unbound. exact Hk.
Qed.

Lemma download_requires_ref_and_job_witness :
  let args := [PyStr "main"] in
  let kwargs : gmap string pyval := {[ "job_token" := PyStr "s3cr3t" ]} in
  (length args < 2)%nat
  /\ kwargs !! "job" = None
  /\ exists k, ProjectArtifactManager.call_download example_artifacts args kwargs
               = ([], Raises (TypeError k)).
Proof.
  intros args kwargs.
  assert (H1 : (length args < 2)%nat) by (simpl; lia).
  assert (H2 : kwargs !! "job" = None) by (vm_compute; reflexivity).
  split; [exact H1|]. split; [exact H2|].
  exact (proj2 (download_requires_ref_and_job example_artifacts args kwargs) H1 H2).
Defined.

(** X5.  A parameter given by position cannot be given again by keyword: for
    both [download] methods such a call is a [TypeError], raised before any
    request is made. *)
Theorem parameter_given_twice self args kwargs i name :
  (i < length args)%nat ->
  is_Some (kwargs !! name) ->
  ((positional ProjectArtifactManager.download_signature).*1 !! i = Some name ->
   exists k, ProjectArtifactManager.call_download self args kwargs
             = ([], Raises (TypeError k)))
  /\ ((positional ProjectJobArtifactManager.download_signature).*1 !! i = Some name ->
      exists k, ProjectJobArtifactManager.call_download self args kwargs
                = ([], Raises (TypeError k))).
Proof.
  intros Hi Hkw. split; intros Hname.
  - destruct (bind_arguments_twice ProjectArtifactManager.download_signature
                args kwargs name) as [k Hk]; [|exact Hkw|].
    + apply elem_of_take. eauto.
    + exists k. apply artifact_call_download_unbound. exact Hk.
  - destruct (bind_arguments_twice ProjectJobArtifactManager.download_signature
                args kwargs name) as [k Hk]; [|exact Hkw|].
    + apply elem_of_take. eauto.
    + exists k. apply job_artifact_call_download_unbound. exact Hk.
Qed.

Lemma parameter_given_twice_witness :
  let args := [PyStr "main"; PyStr "build"] in
  let kwargs : gmap string pyval := {[ "job" := PyStr "test" ]} in
  (1 < length args)%nat
  /\ is_Some (kwargs !! "job")
  /\ (positional ProjectArtifactManager.download_signature).*1 !! 1%nat = Some "job"
  /\ exists k, ProjectArtifactManager.call_download example_artifacts args kwargs
               = ([], Raises (TypeError k)).
Proof.
  intros args kwargs.
  assert (H1 : (1 < length args)%nat) by (simpl; lia).
  assert (H2 : is_Some (kwargs !! "job")) by (vm_compute; eexists; reflexivity).
  assert (H3 : (positional ProjectArtifactManager.download_signature).*1 !! 1%nat
               = Some "job") by reflexivity.
  split; [exact H1|]. split; [exact H2|]. split; [exact H3|].
  exact (proj1 (parameter_given_twice example_artifacts args kwargs 1 "job" H1 H2) H3).
Defined.

(** ** The names the decorators register *)

Lemma fill_defaults_first name rest given :
  given !! name = None ->
  fill_defaults ((name, None) :: rest) given = ([], Raises (TypeError name)).
Proof. intros H. simpl. rewrite H. reflexivity. Qed.

Lemma bind_arguments_no_positional sig (kwargs : gmap string pyval) :
  kwargs !! "self" = None ->
  bind_arguments sig [] kwargs
  = (bound <- fill_defaults (positional sig ++ keyword_only sig)
                (∅ ∪ filter (fun kv => kv.1 ∈ (positional sig).*1
                                          ++ (keyword_only sig).*1) kwargs) ;;
     ret (bound, filter (fun kv => kv.1 ∉ (positional sig).*1
                                    ++ (keyword_only sig).*1) kwargs)).
Proof.
  intros Hself. unfold bind_arguments.
  destruct (Nat.ltb_spec (length (positional sig).*1) (length (@nil pyval)));
    [simpl in *; lia|].
  unfold names_receiver. rewrite Hself.
  rewrite (bool_decide_eq_false_2 (is_Some None)) by (intros [? ?]; discriminate).
  replace (zip (positional sig).*1 (@nil pyval)) with (@nil (string * pyval))
    by (destruct ((positional sig).*1); reflexivity).
  change (list_to_map [] : gmap string pyval) with (∅ : gmap string pyval).
  rewrite find_absent; [reflexivity|].
  intros k _. rewrite lookup_empty.
  apply andb_false_iff. left. apply bool_decide_eq_false.
  intros [v Hv]. discriminate.
Qed.

(** [ProjectJobArtifactManager.raw] needs its [path]: with no positional
    argument and no keyword [path], the call is a [TypeError] for [path]. *)
Lemma job_raw_needs_path self (kwargs : gmap string pyval) :
  kwargs !! "self" = None ->
  kwargs !! "path" = None ->
  ProjectJobArtifactManager.call_raw self [] kwargs
  = ([], Raises (TypeError "path")).
Proof.
  intros Hself Hkw. apply job_artifact_call_raw_unbound.
  rewrite bind_arguments_no_positional by exact Hself.
  change (positional ProjectJobArtifactManager.raw_signature
          ++ keyword_only ProjectJobArtifactManager.raw_signature)
    with (("path", @None pyval)
          :: [("streamed", Some (PyBool false)); ("action", Some PyNone);
              ("chunk_size", Some (PyInt 1024));
              ("iterator", Some (PyBool false))]).
  rewrite fill_defaults_first; [reflexivity|].
  apply lookup_union_None. split; [apply lookup_empty|].
  apply map_lookup_filter_None. left. exact Hkw.
Qed.

(** X6.  The names that [@cli.register_custom_action] declares mandatory for
    [ProjectArtifactManager.download] and [raw] are the parameters without
    default of these methods: given by keyword, and nothing else, they run
    the method in buffered mode.  For [ProjectJobArtifactManager.raw] the
    registered name is [artifact_path] while the parameter is [path]: a call
    that gives the registered names by keyword, whatever the values, puts
    them into [**kwargs] and is a [TypeError] for the missing [path], raised
    before any request. *)
Theorem registered_names_and_parameters self reg :
  (reg ∈ ProjectArtifactManager.download_registered ->
   forall ref_name job,
     ProjectArtifactManager.call_download self []
       (list_to_map (zip (mandatory reg) [PyStr ref_name; PyStr job]))
     = ProjectArtifactManager.download self ref_name job false None 1024 false ∅)
  /\ (reg ∈ ProjectArtifactManager.raw_registered ->
      forall ref_name artifact_path job,
        ProjectArtifactManager.call_raw self []
          (list_to_map (zip (mandatory reg)
                          [PyStr ref_name; PyStr artifact_path; PyStr job]))
        = ProjectArtifactManager.raw self ref_name artifact_path job
            false None 1024 false ∅)
  /\ (reg ∈ ProjectJobArtifactManager.raw_registered ->
      forall values,
        ProjectJobArtifactManager.call_raw self []
          (list_to_map (zip (mandatory reg) values))
        = ([], Raises (TypeError "path"))).
Proof.
  split; [|split].
  - intros Hreg ref_name job. apply list_elem_of_singleton in Hreg as ->.
    unfold ProjectArtifactManager.call_download. bind_known.
  - intros Hreg ref_name artifact_path job.
    apply list_elem_of_singleton in Hreg as ->.
    unfold ProjectArtifactManager.call_raw. bind_known.
  - intros Hreg values.
    apply job_raw_needs_path;
      apply not_elem_of_list_to_map; rewrite zip_keys;
      intros Hin; apply elem_of_take in Hin as (i & Hi & _);
      (apply elem_of_cons in Hreg as [-> | Hreg];
         [|apply list_elem_of_singleton in Hreg as ->]);
      destruct i; discriminate.
Qed.

Lemma registered_names_and_parameters_witness :
  let reg := {| cls_names := "ProjectJobArtifactManager";
                mandatory := ["artifact_path"]; optional := [];
                custom_action := None |} in
  reg ∈ ProjectJobArtifactManager.raw_registered
  /\ ProjectJobArtifactManager.call_raw example_job_artifacts []
       (list_to_map (zip (mandatory reg) [PyStr "report.xml"]))
     = ([], Raises (TypeError "path")).
Proof.
  intros reg.
  assert (H : reg ∈ ProjectJobArtifactManager.raw_registered)
    by apply list_elem_of_here.
  split; [exact H|].
  exact (proj2 (proj2 (registered_names_and_parameters example_job_artifacts reg))
           H [PyStr "report.xml"]).
Defined.

(** ** Keywords of a call that binds *)

Lemma bind_returns_inv {A B} (m : M A) (f : A -> M B) t (b : B) :
  (x <- m ;; f x) = (t, Returns b) ->
  exists t1 a t2, m = (t1, Returns a) /\ f a = (t2, Returns b) /\ t = t1 ++ t2.
Proof.
  destruct m as [t1 [a|e]]; simpl; [|discriminate].
  destruct (f a) as [t2 r] eqn:E. intros H. injection H as <- ->.
  exists t1, a, t2. auto.
Qed.

Lemma ret_inv {A} (a b : A) t : ret a = (t, Returns b) -> a = b.
Proof. unfold ret. congruence. Qed.

Lemma read_options_kwargs b t o :
  read_options b = (t, Returns o) -> opt_kwargs o = b.2.
Proof.
  unfold read_options. intros H.
  repeat (apply bind_returns_inv in H as (? & ? & ? & _ & H & _)).
  apply ret_inv in H. subst o. reflexivity.
Qed.

Lemma bind_arguments_extra_other sig args kwargs t b extra k :
  bind_arguments sig args kwargs = (t, Returns (b, extra)) ->
  k ∉ (positional sig).*1 ++ (keyword_only sig).*1 ->
  extra !! k = kwargs !! k.
Proof.
  unfold bind_arguments. intros Hb Hk.
  destruct (_ <? _)%nat; [discriminate|].
  destruct (names_receiver kwargs); [discriminate|].
  destruct (List.find _ _); [discriminate|].
  match type of Hb with context [fill_defaults ?p ?g] =>
    destruct (fill_defaults p g) as [t' [bound|e]] end; [|discriminate].
  simpl in Hb. injection Hb as _ _ <-.
  apply option_eq. intros v. rewrite map_lookup_filter_Some. simpl. tauto.
Qed.

Lemma bind_arguments_receiver sig args (kwargs : gmap string pyval) t x :
  bind_arguments sig args kwargs = (t, Returns x) -> kwargs !! "self" = None.
Proof.
  unfold bind_arguments, names_receiver.
  destruct (_ <? _)%nat; [discriminate|].
  destruct (kwargs !! "self") eqn:E; [|reflexivity].
  rewrite bool_decide_eq_true_2 by eauto. discriminate.
Qed.

Lemma artifact_download_arguments_inv args kwargs t ref_name job o :
  ProjectArtifactManager.download_arguments args kwargs
  = (t, Returns (ref_name, job, o)) ->
  t = []
  /\ exists b, bind_arguments ProjectArtifactManager.download_signature args kwargs
               = ([], Returns (b, opt_kwargs o)).
Proof.
  intros H. split.
  - pose proof (artifact_download_arguments_silent args kwargs) as Hs.
    rewrite H in Hs. exact Hs.
  - unfold ProjectArtifactManager.download_arguments in H.
    apply bind_returns_inv in H as (t1 & b & ? & Hb & H & _).
    apply bind_returns_inv in H as (? & ? & ? & _ & H & _).
    apply bind_returns_inv in H as (? & ? & ? & _ & H & _).
    apply bind_returns_inv in H as (? & o' & ? & Ho & H & _).
    apply ret_inv in H. injection H as _ _ <-.
    apply read_options_kwargs in Ho.
    pose proof (bind_arguments_silent ProjectArtifactManager.download_signature
                  args kwargs) as Hs.
    rewrite Hb in Hs. simpl in Hs. subst t1.
    exists b.1. rewrite Hb, Ho. destruct b; reflexivity.
Qed.

(** X7.  Whatever the arguments of [ProjectArtifactManager.download] are, once
    they bind, the only keyword that keeps the method from calling the
    client is [raw]: given among the keywords it is a [TypeError] for [raw]
    and the client is not called; otherwise the client is called exactly
    once, for a GET on the path of the bound ref, with the bound job as
    [job].  The parameters [ref_name], [action], [chunk_size] and [iterator]
    are never passed on, and every keyword that names no parameter is.  The
    receiver is a parameter too: a call that binds has no keyword [self]. *)
Theorem download_call_sends self args kwargs t ref_name job o :
  ProjectArtifactManager.download_arguments args kwargs
  = (t, Returns (ref_name, job, o)) ->
  kwargs !! "self" = None
  /\ (kwargs !! "raw" = None ->
   exists c,
     http_calls (events (ProjectArtifactManager.call_download self args kwargs))
     = [c]
     /\ verb c = GET
     /\ call_path c = path self +:+ "/" +:+ ref_name +:+ "/download"
     /\ keywords c !! "job" = Some (PyStr job)
     /\ (forall k, k ∈ ["ref_name"; "action"; "chunk_size"; "iterator"] ->
                   keywords c !! k = None)
     /\ (forall k v, k ∉ ["self"; "ref_name"; "job"; "streamed"; "action";
                          "chunk_size"; "iterator"] ->
                     kwargs !! k = Some v -> keywords c !! k = Some v))
  /\ (is_Some (kwargs !! "raw") ->
      ProjectArtifactManager.call_download self args kwargs
      = ([], Raises (TypeError "raw"))).
Proof.
  intros H.
  destruct (artifact_download_arguments_inv _ _ _ _ _ _ H) as [-> [b Hb]].
  assert (Hrun : ProjectArtifactManager.call_download self args kwargs
                 = ProjectArtifactManager.download self ref_name job
                     (opt_streamed o) (opt_action o) (opt_chunk_size o)
                     (opt_iterator o) (opt_kwargs o)).
  { unfold ProjectArtifactManager.call_download. rewrite H.
    rewrite (bind_value (A:=string * string * fetch_options)). reflexivity. }
  rewrite Hrun.
  set (extra := opt_kwargs o) in *.
  assert (Hparam : forall k,
             k ∈ ["ref_name"; "job"; "streamed"; "action"; "chunk_size"; "iterator"] ->
             extra !! k = None)
    by (intros k; apply (bind_arguments_extra _ _ _ _ _ _ k Hb)).
  assert (Hother : forall k,
             k ∉ ["ref_name"; "job"; "streamed"; "action"; "chunk_size"; "iterator"] ->
             extra !! k = kwargs !! k)
    by (intros k; apply (bind_arguments_extra_other _ _ _ _ _ _ k Hb)).
  assert (Hraw : extra !! "raw" = kwargs !! "raw").
  { apply Hother. intros Hin. no_list_member Hin. }
  assert (Hjob : extra !! "job" = None) by (apply Hparam; list_member).
  assert (Hstreamed : extra !! "streamed" = None) by (apply Hparam; list_member).
  split; [exact (bind_arguments_receiver _ _ _ _ _ Hb)|].
  split.
  - intros Hnone. rewrite Hnone in Hraw.
    assert (Hfree : forall k,
               k ∈ (written_keywords (ArtifactDownload ref_name job)
                      (opt_streamed o)).*1 -> extra !! k = None).
    { intros k Hin. simpl in Hin.
      repeat (apply elem_of_cons in Hin as [-> | Hin]; [assumption|]).
      apply elem_of_nil in Hin. contradiction. }
    eexists. split;
      [exact (perform_one_call (ArtifactDownload ref_name job) self _ _ _ _ _ Hfree)|].
    cbn [verb call_path keywords]. repeat split.
    + apply spliced_keyword_written.
      * apply (written_keywords_NoDup (ArtifactDownload ref_name job)).
      * apply list_elem_of_here.
    + intros k Hk.
      rewrite spliced_keyword_extra.
      * apply Hparam.
        repeat (apply elem_of_cons in Hk as [-> | Hk]; [list_member|]).
        apply elem_of_nil in Hk. contradiction.
      * intros Hin. simpl in Hin.
        repeat (apply elem_of_cons in Hk as [-> | Hk]; [no_list_member Hin|]).
        apply elem_of_nil in Hk. contradiction.
    + intros k v Hk' Hv.
      assert (Hk : k ∉ ["ref_name"; "job"; "streamed"; "action"; "chunk_size";
                        "iterator"])
        by (intros Hin; apply Hk'; apply list_elem_of_further; exact Hin).
      rewrite spliced_keyword_extra; [rewrite (Hother k Hk); exact Hv|].
      intros Hin. simpl in Hin.
      apply elem_of_cons in Hin as [-> | Hin]; [apply Hk; list_member|].
      apply elem_of_cons in Hin as [-> | Hin]; [apply Hk; list_member|].
      apply elem_of_cons in Hin as [-> | Hin]; [congruence|].
      apply elem_of_nil in Hin. contradiction.
  - intros Hsome. rewrite <- Hraw in Hsome.
    unfold ProjectArtifactManager.download, pass_keywords.
    cbn [fmap list_fmap fst List.find].
    rewrite Hjob, Hstreamed.
    rewrite (bool_decide_eq_false_2 (is_Some None)) by (intros [? ?]; discriminate).
    rewrite (bool_decide_eq_true_2 _ Hsome).
    reflexivity.
Qed.

Lemma download_call_sends_witness :
  let args := [PyStr "main"; PyStr "build"] in
  let kwargs : gmap string pyval := {[ "job_token" := PyStr "s3cr3t" ]} in
  let o := {| opt_streamed := false; opt_action := None; opt_chunk_size := 1024;
              opt_iterator := false; opt_kwargs := kwargs |} in
  ProjectArtifactManager.download_arguments args kwargs
  = ([], Returns ("main", "build", o))
  /\ kwargs !! "raw" = None
  /\ kwargs !! "self" = None
  /\ exists c,
       http_calls (events (ProjectArtifactManager.call_download example_artifacts
                             args kwargs)) = [c]
       /\ call_path c = "/projects/42/jobs/artifacts/main/download"
       /\ keywords c !! "job_token" = Some (PyStr "s3cr3t")
       /\ keywords c !! "chunk_size" = None.
Proof.
  intros args kwargs o.
  assert (H1 : ProjectArtifactManager.download_arguments args kwargs
               = ([], Returns ("main", "build", o))) by (vm_compute; reflexivity).
  assert (H2 : kwargs !! "raw" = None) by (vm_compute; reflexivity).
  split; [exact H1|]. split; [exact H2|].
  destruct (download_call_sends example_artifacts args kwargs [] "main"
              "build" o H1) as (Hself & Hsend & _).
  split; [exact Hself|].
  destruct (Hsend H2) as (c & Hc & _ & Hp & _ & Hnot & Hfw).
  exists c. split; [exact Hc|]. split; [exact Hp|]. split.
  - apply Hfw; [|vm_compute; reflexivity].
    intros Hin. no_list_member Hin.
  - apply Hnot. list_member.
Defined.

(** ** The assertions under [TYPE_CHECKING] *)

(** X8.  The assertions of [ProjectArtifactManager.__call__], that the data
    is not [None] and that it is bytes, stand under [if TYPE_CHECKING:] and
    do not run: when the client answers with success, a call of the manager
    with [streamed=True] emits its notice, makes its request and returns
    [None], and a call with [iterator=True] returns the chunk iterator. *)
Theorem call_asserts_nothing self ref_name job :
  let c streamed := request (ArtifactDownload ref_name job) self streamed ∅ in
  (reports_success (gitlab self) (c true) ->
   exists message,
     ProjectArtifactManager.__call__ self
       [PyStr ref_name; PyStr job; PyBool true] ∅
     = ([Warning DeprecationWarning message; Http (c true)], Returns PNone))
  /\ (reports_success (gitlab self) (c false) ->
      exists message,
        ProjectArtifactManager.__call__ self [PyStr ref_name; PyStr job]
          {[ "iterator" := PyBool true ]}
        = ([Warning DeprecationWarning message; Http (c false)],
           Returns (PIterator (iter_content (remote (gitlab self) (c false))
                                 1024)))).
Proof.
  intros c. subst c.
  assert (Hfree : forall s, repeats_none (ArtifactDownload ref_name job) s ∅ = true).
  { intros s. apply repeats_none_spec. intros k _. apply lookup_empty. }
  split; intros Hs.
  - assert (E : ProjectArtifactManager.call_download self
                  [PyStr ref_name; PyStr job; PyBool true] ∅
                = perform (ArtifactDownload ref_name job) self true None 1024
                    false ∅)
      by (unfold ProjectArtifactManager.call_download; bind_known).
    unfold ProjectArtifactManager.__call__.
    change (names_receiver ∅) with false. cbv iota.
    rewrite E, (perform_answered _ _ _ _ _ _ _ (Hfree true) Hs).
    eexists. reflexivity.
  - assert (E : ProjectArtifactManager.call_download self
                  [PyStr ref_name; PyStr job] {[ "iterator" := PyBool true ]}
                = perform (ArtifactDownload ref_name job) self false None 1024
                    true ∅)
      by (unfold ProjectArtifactManager.call_download; bind_known).
    unfold ProjectArtifactManager.__call__.
    change (names_receiver {[ "iterator" := PyBool true ]}) with false. cbv iota.
    rewrite E, (perform_answered _ _ _ _ _ _ _ (Hfree false) Hs).
    eexists. reflexivity.
Qed.

Lemma call_asserts_nothing_witness :
  let c := request (ArtifactDownload "main" "build") example_artifacts true ∅ in
  reports_success example_gitlab c
  /\ exists message,
       ProjectArtifactManager.__call__ example_artifacts
         [PyStr "main"; PyStr "build"; PyBool true] ∅
       = ([Warning DeprecationWarning message; Http c], Returns PNone).
Proof.
  intros c.
  assert (H : reports_success (gitlab example_artifacts) c)
    by (vm_compute; reflexivity).
  split; [exact H|].
  exact (proj1 (call_asserts_nothing example_artifacts "main" "build") H).
Defined.

(** ** A file is never the archive *)



